(** * Flwr-Farm next-week e-mail card: a shallow embedding of the scripts

    The repository holds three revisions of one Node script:
    [update-collection-basic.js] (module [Basic]), the revision with currency
    symbols and striped rows (module [Striped]) and the revision with the
    bordered card, title and product count (module [Card]).  They share the
    identifier resolver, the GraphQL client, the collection fetcher and the
    publisher, and differ in [esc], [formatMoney], the product record and
    [buildHtml].  Shared code is modelled once.

    Conventions.
    - A JavaScript string is modelled by its UTF-8 encoding in [string].
    - The time value of a valid [Date] is a [Z], milliseconds since the epoch;
      the time value NaN is [None].
    - A Number is a [spec_float] read at binary64; [Number(s)] takes the
      correctly rounded value of a decimal literal.
    - A response body is what [JSON.parse] makes of it: nothing (it throws),
      [null], an object, or another value.  The [data] of an object is typed
      by the selection sets of the queries the scripts send, and its
      [errors], when present, is a list.
    - The symbol table is the object literal of the source: a lookup in it
      also finds what every object inherits from [Object.prototype].
    - A thrown [Error] keeps the values its message is built from. *)

From Stdlib Require Import ZArith Lia List Bool Ascii String.
From Stdlib Require Import Floats.SpecFloat DecimalString DecimalN DecimalPos DecimalFacts.
Import ListNotations.
Local Open Scope string_scope.
Local Open Scope Z_scope.

(** ** ECMAScript time values (ECMA-262, "Time Values and Time Range") *)

Module Time.

Definition msPerDay : Z := 86400000.

Definition Day (t : Z) : Z := t / msPerDay.
Definition TimeWithinDay (t : Z) : Z := t mod msPerDay.

Definition isLeap (y : Z) : bool :=
  if negb (y mod 4 =? 0) then false
  else if negb (y mod 100 =? 0) then true
  else if negb (y mod 400 =? 0) then false
  else true.

Definition DaysInYear (y : Z) : Z := if isLeap y then 366 else 365.

Definition DayFromYear (y : Z) : Z :=
  365 * (y - 1970) + (y - 1969) / 4 - (y - 1901) / 100 + (y - 1601) / 400.

Definition TimeFromYear (y : Z) : Z := msPerDay * DayFromYear y.

(** The largest [y] with [DayFromYear y <= d]: a first guess from the mean
    length of the Gregorian year, corrected by at most one. *)
Definition YearFromDay (d : Z) : Z :=
  let y := 1970 + (d * 400) / 146097 in
  if d <? DayFromYear y then y - 1
  else if DayFromYear (y + 1) <=? d then y + 1
  else y.

Definition YearFromTime (t : Z) : Z := YearFromDay (Day t).
Definition InLeapYear (t : Z) : Z := if isLeap (YearFromTime t) then 1 else 0.
Definition DayWithinYear (t : Z) : Z := Day t - DayFromYear (YearFromTime t).

Definition MonthFromTime (t : Z) : Z :=
  let d := DayWithinYear t in
  let l := InLeapYear t in
  if d <? 31 then 0
  else if d <? 59 + l then 1
  else if d <? 90 + l then 2
  else if d <? 120 + l then 3
  else if d <? 151 + l then 4
  else if d <? 181 + l then 5
  else if d <? 212 + l then 6
  else if d <? 243 + l then 7
  else if d <? 273 + l then 8
  else if d <? 304 + l then 9
  else if d <? 334 + l then 10
  else 11.

Definition DateFromTime (t : Z) : Z :=
  let d := DayWithinYear t in
  let l := InLeapYear t in
  match MonthFromTime t with
  | 0 => d + 1
  | 1 => d - 30
  | 2 => d - 58 - l
  | 3 => d - 89 - l
  | 4 => d - 119 - l
  | 5 => d - 150 - l
  | 6 => d - 180 - l
  | 7 => d - 211 - l
  | 8 => d - 242 - l
  | 9 => d - 272 - l
  | 10 => d - 303 - l
  | _ => d - 333 - l
  end.

Definition WeekDay (t : Z) : Z := (Day t + 4) mod 7.

(** Day number of the first day of month [mn] (0..11) of year [ym]. *)
Definition monthStart (ym mn : Z) : Z :=
  let l := if isLeap ym then 1 else 0 in
  DayFromYear ym +
  match mn with
  | 0 => 0
  | 1 => 31
  | 2 => 59 + l
  | 3 => 90 + l
  | 4 => 120 + l
  | 5 => 151 + l
  | 6 => 181 + l
  | 7 => 212 + l
  | 8 => 243 + l
  | 9 => 273 + l
  | 10 => 304 + l
  | _ => 334 + l
  end.

Definition MakeDay (year month date : Z) : Z :=
  let ym := year + month / 12 in
  let mn := month mod 12 in
  monthStart ym mn + date - 1.

Definition MakeDate (day time : Z) : Z := day * msPerDay + time.

(** [None] stands for the time value NaN (an invalid Date). *)
Definition TimeClip (time : Z) : option Z :=
  if Z.abs time <=? 8640000000000000 then Some time else None.

(** Legacy two-digit years: 0..99 mean 1900..1999. *)
Definition MakeFullYear (year : Z) : Z :=
  if (0 <=? year) && (year <=? 99) then 1900 + year else year.

(** [Date.UTC(year, month, date)] and the accessors the script calls. *)
Definition Date_UTC (year month date : Z) : option Z :=
  TimeClip (MakeDate (MakeDay (MakeFullYear year) month date) 0).

Definition getUTCFullYear := YearFromTime.
Definition getUTCMonth := MonthFromTime.
Definition getUTCDate := DateFromTime.
Definition getUTCDay := WeekDay.

Definition setUTCDate (t dt : Z) : option Z :=
  TimeClip (MakeDate (MakeDay (YearFromTime t) (MonthFromTime t) dt)
                     (TimeWithinDay t)).

End Time.

Import Time.

(** ** Identifier resolver *)

(** [isoWeekNumberUTC(date)], for a valid Date with time value [date];
    [None] is the result NaN.  [d] and [yearStart] are midnights, so
    [diffDays] is an integer, and one far below 2^53: the division by 7
    followed by [Math.ceil] is the integer ceiling. *)
Definition isoWeekNumberUTC (date : Z) : option Z :=
  match Date_UTC (getUTCFullYear date) (getUTCMonth date) (getUTCDate date) with
  | None => None
  | Some d =>
      let day := if getUTCDay d =? 0 then 7 else getUTCDay d in
      match setUTCDate d (getUTCDate d + 4 - day) with
      | None => None
      | Some d' =>
          match Date_UTC (getUTCFullYear d') 0 1 with
          | None => None
          | Some yearStart =>
              let diffDays := (d' - yearStart) / 86400000 + 1 in
              Some ((diffDays + 6) / 7)
          end
      end
  end.

(** Time value of midnight UTC on the civil date [y]-[m]-[d] of the
    proleptic Gregorian calendar (month 1..12); the year is taken as it is. *)
Definition utc (y m d : Z) : Z := MakeDate (MakeDay y (m - 1) d) 0.

Definition legacy_year (y : Z) : Prop := 0 <= y <= 99.

Definition in_time_range (t : Z) : Prop := Z.abs t <= 8640000000000000.

(** ** ISO 8601 week numbering, on day numbers (day 0 = Thursday 1970-01-01) *)

Module ISO8601.

(** Monday = 1 .. Sunday = 7. *)
Definition isoDayOfWeek (d : Z) : Z := (d + 3) mod 7 + 1.

(** The Thursday of the Monday-to-Sunday week that holds [d]. *)
Definition thursday (d : Z) : Z := d + (4 - isoDayOfWeek d).

(** The algorithm as the specification words it: shift to the Thursday of the
    week, then take the ceiling of (day-of-year of that Thursday) / 7, 1 January
    being day 1. *)
Definition specWeek (d : Z) : Z :=
  let th := thursday d in
  let dayOfYear := th - DayFromYear (YearFromDay th) + 1 in
  (dayOfYear + 6) / 7.

(** The reference definition: weeks start on Monday and week 1 of a year is
    the week that holds the year's first Thursday. *)
Definition firstThursday (y : Z) : Z :=
  let jan1 := DayFromYear y in
  jan1 + (4 - isoDayOfWeek jan1) mod 7.

Definition week1Monday (y : Z) : Z := firstThursday y - 3.

Definition weekYear (d : Z) : Z :=
  let y := YearFromDay d in
  if d <? week1Monday y then y - 1
  else if week1Monday (y + 1) <=? d then y + 1
  else y.

Definition weekNumber (d : Z) : Z := (d - week1Monday (weekYear d)) / 7 + 1.

End ISO8601.

(** The dates on which [isoWeekNumberUTC] reads back the year it wrote:
    [Date.UTC] takes a year 0..99 for 1900..1999, and 1 January of the
    Thursday's year must itself be a representable time value. *)
Definition week_defined (t : Z) : Prop :=
  let y' := YearFromDay (ISO8601.thursday (Day t)) in
  in_time_range t /\
  ~ legacy_year (YearFromTime t) /\
  ~ legacy_year y' /\
  in_time_range (TimeFromYear y').

(** ** Strings *)

Module Str.

(** Template text is written with an apostrophe where the script has a double
    quote; the scripts' templates hold no apostrophe of their own. *)
Fixpoint tq (s : string) : string :=
  match s with
  | EmptyString => EmptyString
  | String c r => String (if Ascii.eqb c "'" then "034"%char else c) (tq r)
  end.

Definition code (c : ascii) : N := N_of_ascii c.

(** Decimal digits of a natural number and of an integer: what
    [Number::toString] prints for an integer below 10^21. *)
Definition dec (n : N) : string :=
  DecimalString.NilZero.string_of_uint (N.to_uint n).

Definition decZ (z : Z) : string :=
  if z <? 0 then "-" ++ dec (Z.to_N (- z)) else dec (Z.to_N z).

Fixpoint rev (s : string) : string :=
  match s with
  | EmptyString => EmptyString
  | String c r => rev r ++ String c EmptyString
  end.

Fixpoint join (sep : string) (l : list string) : string :=
  match l with
  | [] => ""
  | [x] => x
  | x :: r => x ++ sep ++ join sep r
  end.

Fixpoint repeat0 (n : nat) : string :=
  match n with O => "" | S k => String "0" (repeat0 k) end.

(** The code points ECMAScript counts as white space or line terminators, in
    UTF-8: one, two or three bytes. *)
Definition ws1 (a : ascii) : bool :=
  let n := code a in
  (((9 <=? n) && (n <=? 13)) || (n =? 32))%N.

Definition ws2 (a b : ascii) : bool :=
  ((code a =? 194) && (code b =? 160))%N.

Definition ws3 (a b c : ascii) : bool :=
  let x := code a in let y := code b in let z := code c in
  (((x =? 225) && (y =? 154) && (z =? 128))
   || ((x =? 226) && (y =? 128) &&
       (((128 <=? z) && (z <=? 138)) || (z =? 168) || (z =? 169) || (z =? 175)))
   || ((x =? 226) && (y =? 129) && (z =? 159))
   || ((x =? 227) && (y =? 128) && (z =? 128))
   || ((x =? 239) && (y =? 187) && (z =? 191)))%N.

(** Drops every leading code point recognised by [p1], [p2], [p3]. *)
Fixpoint strip (p1 : ascii -> bool) (p2 : ascii -> ascii -> bool)
    (p3 : ascii -> ascii -> ascii -> bool) (s : string) : string :=
  match s with
  | EmptyString => EmptyString
  | String a r =>
      if p1 a then strip p1 p2 p3 r
      else match r with
           | String b r2 =>
               if p2 a b then strip p1 p2 p3 r2
               else match r2 with
                    | String c r3 => if p3 a b c then strip p1 p2 p3 r3 else s
                    | EmptyString => s
                    end
           | EmptyString => s
           end
  end.

Definition trimStart (s : string) : string := strip ws1 ws2 ws3 s.

Definition trimEnd (s : string) : string :=
  rev (strip ws1 (fun a b => ws2 b a) (fun a b c => ws3 c b a) (rev s)).

Definition trim (s : string) : string := trimEnd (trimStart s).

(** [s.replace(/c/g, by)] for a one-character pattern. *)
Fixpoint replaceAll (c : ascii) (by_ : string) (s : string) : string :=
  match s with
  | EmptyString => EmptyString
  | String a r =>
      (if Ascii.eqb a c then by_ else String a EmptyString) ++ replaceAll c by_ r
  end.

(** [sub] occurs in [s] at its very start; at some position. *)
Fixpoint contains (sub s : string) : bool :=
  String.prefix sub s ||
  match s with
  | EmptyString => false
  | String _ r => contains sub r
  end.

(** Number of positions of [s] at which [sub] starts. *)
Fixpoint count (sub s : string) : nat :=
  match s with
  | EmptyString => if String.prefix sub "" then 1%nat else 0%nat
  | String _ r => ((if String.prefix sub s then 1 else 0) + count sub r)%nat
  end.

End Str.

Import Str.

(** ** Number values (IEEE 754 binary64) and the conversions the scripts use *)

Module JSNumber.

Definition prec : Z := 53.
Definition emax : Z := 1024.

(** The double nearest to [p / q], ties to even; overflow gives infinity. *)
Definition round_ratio (neg : bool) (p q : positive) : spec_float :=
  SFdiv prec emax (S754_finite neg p 0) (S754_finite false q 0).

(** The double for the decimal [d * 10 ^ e]. *)
Definition of_decimal (neg : bool) (d : N) (e : Z) : spec_float :=
  match d with
  | N0 => S754_zero neg
  | Npos p =>
      if 0 <=? e then round_ratio neg (p * Z.to_pos (10 ^ e)) 1
      else round_ratio neg p (Z.to_pos (10 ^ (- e)))
  end.

Definition isFinite (x : spec_float) : bool :=
  match x with
  | S754_zero _ | S754_finite _ _ _ => true
  | S754_infinity _ | S754_nan => false
  end.

Definition digit_val (base : N) (c : ascii) : option N :=
  let n := code c in
  let v := (if (48 <=? n) && (n <=? 57) then Some (n - 48)
            else if (97 <=? n) && (n <=? 102) then Some (n - 87)
            else if (65 <=? n) && (n <=? 70) then Some (n - 55)
            else None)%N in
  match v with
  | Some d => if (d <? base)%N then Some d else None
  | None => None
  end.

(** Reads the longest run of digits: the value so far, the number of digits
    read, and the rest. *)
Fixpoint read_digits (base : N) (s : string) (acc : N) (cnt : nat)
    : N * nat * string :=
  match s with
  | EmptyString => (acc, cnt, EmptyString)
  | String c r =>
      match digit_val base c with
      | Some v => read_digits base r (acc * base + v)%N (S cnt)
      | None => (acc, cnt, s)
      end
  end.

(** ExponentPart, optional, up to the end of the literal. *)
Definition parse_exponent (s : string) : option Z :=
  match s with
  | EmptyString => Some 0
  | String c r =>
      if ((code c =? 101) || (code c =? 69))%N then
        let '(neg, r') :=
          match r with
          | String "+" t => (false, t)
          | String "-" t => (true, t)
          | _ => (false, r)
          end in
        let '(v, n, rest) := read_digits 10 r' 0 0 in
        match n, rest with
        | S _, EmptyString => Some (if neg then - Z.of_N v else Z.of_N v)
        | _, _ => None
        end
      else None
  end.

(** StrUnsignedDecimalLiteral. *)
Definition parse_unsigned_decimal (neg : bool) (s : string) : spec_float :=
  if String.eqb s "Infinity" then S754_infinity neg
  else
    let '(ip, n1, r1) := read_digits 10 s 0 0 in
    let '(mant, n2, r2) :=
      match r1 with
      | String "." r => read_digits 10 r ip 0
      | _ => (ip, 0%nat, r1)
      end in
    let dotted := match r1 with String "." _ => true | _ => false end in
    if (if dotted then Nat.ltb 0 (n1 + n2) else Nat.ltb 0 n1) then
      match parse_exponent r2 with
      | Some x => of_decimal neg mant (x - Z.of_nat n2)
      | None => S754_nan
      end
    else S754_nan.

(** NonDecimalIntegerLiteral: the digits after [0x], [0o] or [0b]. *)
Definition parse_radix (base : N) (s : string) : spec_float :=
  let '(v, n, rest) := read_digits base s 0 0 in
  match n, rest with
  | S _, EmptyString => of_decimal false v 0
  | _, _ => S754_nan
  end.

(** [Number(s)] for a string [s] (StringToNumber). *)
Definition Number (s : string) : spec_float :=
  match trim s with
  | EmptyString => S754_zero false
  | String "0" (String "x" r) | String "0" (String "X" r) => parse_radix 16 r
  | String "0" (String "o" r) | String "0" (String "O" r) => parse_radix 8 r
  | String "0" (String "b" r) | String "0" (String "B" r) => parse_radix 2 r
  | String "+" r => parse_unsigned_decimal false r
  | String "-" r => parse_unsigned_decimal true r
  | t => parse_unsigned_decimal false t
  end.

(** [x >= 10^21] for the positive double [m * 2^e]. *)
Definition ge_1e21 (m : positive) (e : Z) : bool :=
  if 0 <=? e then 10 ^ 21 <=? Zpos m * 2 ^ e
  else 10 ^ 21 * 2 ^ (- e) <=? Zpos m.

(** The integer [n] for which [n / 10^f] is nearest to [m * 2^e], the larger
    one of two. *)
Definition nearest_scaled (m : positive) (e : Z) (f : nat) : Z :=
  let scaled := Zpos m * 10 ^ Z.of_nat f in
  if 0 <=? e then scaled * 2 ^ e
  else (2 * scaled + 2 ^ (- e)) / (2 * 2 ^ (- e)).

(** The digits of [n] with a point before the last [f] of them, padded with
    zeros on the left to [f + 1] digits. *)
Definition fixed_digits (n : N) (f : nat) : string :=
  let m := dec n in
  let k := String.length m in
  let m := if Nat.leb k f then repeat0 (f + 1 - k) ++ m else m in
  let k := String.length m in
  match f with
  | O => m
  | _ => substring 0 (k - f) m ++ "." ++ substring (k - f) f m
  end.

Definition roundtrip (v : Z) (x : spec_float) : bool :=
  match v with
  | Zpos p => SFeqb (round_ratio false p 1) x
  | _ => false
  end.

(** The shortest decimal that reads back as [x], for an integer-valued
    [x = X] of [nd] digits, tried from [k] significant digits on. *)
Fixpoint shortest (fuel k : nat) (X : Z) (nd : nat) (x : spec_float) : Z :=
  match fuel with
  | O => X
  | S fuel' =>
      let scale := 10 ^ Z.of_nat (nd - k) in
      let lo := X / scale * scale in
      let hi := lo + scale in
      match roundtrip lo x, roundtrip hi x with
      | true, true =>
          if X - lo <? hi - X then lo
          else if hi - X <? X - lo then hi
          else if Z.even (lo / scale) then lo else hi
      | true, false => lo
      | false, true => hi
      | false, false => shortest fuel' (S k) X nd x
      end
  end.

Fixpoint strip_zeros (s : string) : string :=
  match s with
  | String "0" r => strip_zeros r
  | _ => s
  end.

(** [Number::toString] of the positive double [m * 2^e] when it is at least
    10^21: exponential notation, as few digits as read back to the same
    double. *)
Definition toString_ge_1e21 (m : positive) (e : Z) : string :=
  let X := Zpos m * 2 ^ e in
  let nd := String.length (decZ X) in
  let v := decZ (shortest 17 1 X nd (S754_finite false m e)) in
  let n := String.length v in
  let digits := rev (strip_zeros (rev v)) in
  let expo := "e+" ++ dec (N.of_nat (n - 1)) in
  match digits with
  | String d EmptyString => digits ++ expo
  | String d r => String d ("." ++ r) ++ expo
  | EmptyString => expo
  end.

(** [x.toFixed(f)] for [f] in 0..100. *)
Definition toFixed (x : spec_float) (f : nat) : string :=
  match x with
  | S754_nan => "NaN"
  | S754_infinity s => if s then "-Infinity" else "Infinity"
  | S754_zero _ => fixed_digits 0 f
  | S754_finite s m e =>
      (if s then "-" else "") ++
      (if ge_1e21 m e then toString_ge_1e21 m e
       else fixed_digits (Z.to_N (nearest_scaled m e f)) f)
  end.

End JSNumber.

Import JSNumber.

(** ** Values shared by the scripts *)

(** JavaScript truthiness of a string and of a count. *)
Definition truthy (s : string) : bool := negb (String.eqb s "").
Definition nonzero (n : nat) : bool := negb (Nat.eqb n 0).

(** [a || b] for a possibly absent string [a]. *)
Definition or_else (a : option string) (b : string) : string :=
  match a with
  | Some s => if truthy s then s else b
  | None => b
  end.

(** [s.split("/").pop()]: what follows the last slash. *)
Fixpoint last_segment_from (acc s : string) : string :=
  match s with
  | EmptyString => acc
  | String c r =>
      if Ascii.eqb c "/" then last_segment_from r r else last_segment_from acc r
  end.

Definition last_segment (s : string) : string := last_segment_from s s.

(** [esc] of the two later scripts: four replacements, in this order. *)
Definition esc (s : string) : string :=
  replaceAll "034" (tq "&quot;")
    (replaceAll ">" "&gt;"
      (replaceAll "<" "&lt;"
        (replaceAll "&" "&amp;" s))).

(** The display record built for each product. *)
Record ProductRecord := {
  title : string;
  url : string;
  price : string;
  imageUrl : string;
  imageAlt : string
}.

(** *** What the remote returns, typed by the selection sets of the queries;
    [option] marks a field that may be missing or [null]. *)

Record Image := { image_url : option string; altText : option string }.

Record MoneyV2 := { amount : string; currencyCode : string }.

Record ProductNode := {
  node_title : option string;
  node_handle : string;
  onlineStoreUrl : option string;
  featuredImage : option Image;
  minVariantPrice : option MoneyV2
}.

Record Collection := { collection_id : string; collection_title : string }.

Record UserError := { field : option (list string); message : string }.

Record MetafieldsSetPayload := { userErrors : option (list UserError) }.

(** The [shop] object of the shop query; its [id] may be missing. *)
Record Shop := { shop_id : option string }.

Inductive Data :=
| DataCollection (collectionByHandle : option Collection)
| DataProducts (edges : option (list ProductNode))
| DataShop (shop : option Shop)
| DataMetafieldsSet (metafieldsSet : option MetafieldsSetPayload).

(** One entry of a GraphQL [errors] array, kept as the remote serialised it. *)
Definition GraphQLError := string.

Record Envelope := { errors : option (list GraphQLError); data : option Data }.

(** What [JSON.parse] returns: [null], an object, or another value (a
    number, a string, a boolean or an array), on which [.errors] and [.data]
    are [undefined]. *)
Inductive Json :=
| JsonNull
| JsonObject (json : Envelope)
| JsonOther.

(** An HTTP response: status, raw body, and what [JSON.parse] makes of the
    body ([None] when it throws). *)
Record Response := {
  status : Z;
  text : string;
  parsed : option Json
}.

(** [ownerId] is [None] when the script found no [id] in the shop object:
    [JSON.stringify] then leaves the key out. *)
Record MetafieldsSetInput := {
  ownerId : option string;
  namespace : string;
  key : string;
  type_ : string;
  value : string
}.

Inductive Variables :=
| NoVariables
| HandleVars (handle : string)
| ProductsVars (first : Z) (query : string)
| MetafieldsVars (metafields : list MetafieldsSetInput).

Record Request := { req_query : string; req_variables : Variables }.

(** What a script throws.  [ErrorWith prefix payload] is
    [new Error(prefix + JSON.stringify(payload))]. *)
Inductive Payload :=
| GraphQLErrorList (errs : list GraphQLError)
| UserErrorList (errs : list UserError).

Inductive JsError :=
| Error (msg : string)
| ErrorWith (prefix : string) (payload : Payload)
| SyntaxError (body : string)
| TypeError.

Inductive Result (A : Type) :=
| Ok (a : A)
| Throw (e : JsError).
Arguments Ok {A} a.
Arguments Throw {A} e.

(** ** [update-collection-basic.js] *)

Module Basic.

Record ProductRecord := { title : string; url : string }.

Definition esc (s : string) : string :=
  replaceAll ">" "&gt;" (replaceAll "<" "&lt;" (replaceAll "&" "&amp;" s)).

Definition productsQuery : string :=
  "query($first:Int!,$query:String!){
    products(first:$first, query:$query, sortKey:TITLE){
      edges{
        node{
          title
          handle
          onlineStoreUrl
        }
      }
    }
  }".

Definition productRecord (shop : string) (p : ProductNode) : ProductRecord :=
  {| title := or_else (node_title p) "";
     url := or_else (onlineStoreUrl p)
              ("https://" ++ shop ++ ".myshopify.com/products/" ++ node_handle p) |}.

Definition item (p : ProductRecord) : string :=
  tq "<li style='margin:0 0 8px 0;'><a href='" ++
  url p ++
  tq "' style='color:#111;text-decoration:none;'>" ++
  esc (title p) ++
  "</a></li>".

Definition buildHtml (collectionTitle : string) (products : list ProductRecord)
    : string :=
  let items := join "
" (map item products) in
  trim
  (tq "
<div style='font-family:Arial,sans-serif;font-size:14px;line-height:1.4;'>
  <p style='margin:0 0 10px 0;'><strong>" ++
  esc collectionTitle ++
  "</strong> (" ++
  dec (N.of_nat (List.length products)) ++
  tq " products)</p>
  <ul style='padding-left:18px;margin:0;'>
" ++
  (if truthy items then items else "    <li>No products found.</li>") ++
  "
  </ul>
</div>
").

End Basic.

(** ** The revision with currency symbols and striped rows *)

Module Striped.

(** The table [symbols] as the file spells it, byte for byte: the entries for
    EUR and GBP are E2 80 9A C3 87 C2 A8 and C2 AC C2 A3. *)
Definition symbols : list (string * string) :=
  [ ("USD", "$");
    ("EUR", String "226" (String "128" (String "154" (String "195"
              (String "135" (String "194" (String "168" EmptyString)))))));
    ("GBP", String "194" (String "172" (String "194" (String "163" EmptyString))));
    ("HUF", "Ft");
    ("CAD", "$");
    ("AUD", "$") ].

(** [symbols] is an object literal, so [symbols[currencyCode]] also finds
    the members of [Object.prototype]: eleven functions and [__proto__],
    each truthy, here as Node writes them inside a template literal. *)
Definition native (name : string) : string :=
  "function " ++ name ++ "() { [native code] }".

Definition inherited : list (string * string) :=
  [ ("constructor", native "Object");
    ("__defineGetter__", native "__defineGetter__");
    ("__defineSetter__", native "__defineSetter__");
    ("hasOwnProperty", native "hasOwnProperty");
    ("__lookupGetter__", native "__lookupGetter__");
    ("__lookupSetter__", native "__lookupSetter__");
    ("isPrototypeOf", native "isPrototypeOf");
    ("propertyIsEnumerable", native "propertyIsEnumerable");
    ("toString", native "toString");
    ("valueOf", native "valueOf");
    ("__proto__", "[object Object]");
    ("toLocaleString", native "toLocaleString") ].

Fixpoint lookup (k : string) (l : list (string * string)) : option string :=
  match l with
  | [] => None
  | (k', v) :: r => if String.eqb k k' then Some v else lookup k r
  end.

(** [symbols[currencyCode]]: an own entry, else an inherited member. *)
Definition symbols_get (currencyCode : string) : option string :=
  match lookup currencyCode symbols with
  | Some v => Some v
  | None => lookup currencyCode inherited
  end.

Definition formatMoney (amountStr currencyCode : string) : string :=
  let n := Number amountStr in
  if negb (isFinite n) then ""
  else
    let symbol := or_else (symbols_get currencyCode) currencyCode in
    symbol ++ toFixed n 2.

Definition productRecord (shop : string) (p : ProductNode) : ProductRecord :=
  let price :=
    match minVariantPrice p with
    | Some money => formatMoney (amount money) (currencyCode money)
    | None => ""
    end in
  let imageUrl :=
    or_else (match featuredImage p with Some i => image_url i | None => None end) "" in
  let imageAlt :=
    or_else (match featuredImage p with Some i => altText i | None => None end)
            (or_else (node_title p) "") in
  {| title := or_else (node_title p) "";
     url := or_else (onlineStoreUrl p)
              ("https://" ++ shop ++ ".myshopify.com/products/" ++ node_handle p);
     price := price;
     imageUrl := imageUrl;
     imageAlt := imageAlt |}.

Definition img (p : ProductRecord) : string :=
  if truthy (imageUrl p)
  then tq "<img src='" ++
       imageUrl p ++
       tq "' alt='" ++
       esc (imageAlt p) ++
       tq "' width='72' height='72'
              style='display:block;object-fit:cover;border:none;'>"
  else tq "<div style='width:72px;height:72px;background:#eee;'></div>".

Definition priceLine (p : ProductRecord) : string :=
  if truthy (price p)
  then tq "<div style='margin-top:4px;color:#222829;font-size:13px;'>" ++
       esc (price p) ++
       "</div>"
  else "".

Definition row (index : nat) (p : ProductRecord) : string :=
  let bgColor := if Nat.eqb (Nat.modulo index 2) 0 then "#f4ebe6" else "#d6b5a2" in
  trim (tq "
      <tr style='background:" ++
        bgColor ++
        tq ";'>
        <td style='padding:12px 10px;vertical-align:top;width:84px;'>
          " ++
        img p ++
        tq "
        </td>
        <td style='padding:12px 10px;vertical-align:top;'>
          <div style='color:#222829;font-weight:600;'>
            " ++
        esc (title p) ++
        "
          </div>
          " ++
        priceLine p ++
        "
        </td>
      </tr>
    ").

Fixpoint rows_from (index : nat) (products : list ProductRecord) : list string :=
  match products with
  | [] => []
  | p :: r => row index p :: rows_from (S index) r
  end.

Definition rows (products : list ProductRecord) : string :=
  join "
" (rows_from 0 products).

Definition empty : string :=
  trim (tq "
    <tr>
      <td style='padding:12px;color:#222829;'>No products found.</td>
    </tr>
  ").

Definition buildHtml (collectionTitle : string) (products : list ProductRecord)
    (collectionLink : string) : string :=
  trim (tq "
<a href='" ++
        collectionLink ++
        tq "' style='text-decoration:none;color:#222829;display:block;'>
  <div style='font-family:Arial,sans-serif;font-size:14px;line-height:1.4;color:#222829;'>
      
      <table role='presentation' cellpadding='0' cellspacing='0'
             style='width:100%;border-collapse:collapse;'>
        <tbody>
          " ++
        (if nonzero (List.length products) then rows products else empty) ++
        "
        </tbody>
      </table>

  </div>
</a>
").

End Striped.

(** ** The revision with the bordered card, title and product count *)

Module Card.

Definition formatMoney (amountStr currencyCode : string) : string :=
  let n := Number amountStr in
  if negb (isFinite n) then ""
  else currencyCode ++ " " ++ toFixed n 2.

Definition productRecord (shop : string) (p : ProductNode) : ProductRecord :=
  let price :=
    match minVariantPrice p with
    | Some money => formatMoney (amount money) (currencyCode money)
    | None => ""
    end in
  let imageUrl :=
    or_else (match featuredImage p with Some i => image_url i | None => None end) "" in
  let imageAlt :=
    or_else (match featuredImage p with Some i => altText i | None => None end)
            (or_else (node_title p) "") in
  {| title := or_else (node_title p) "";
     url := or_else (onlineStoreUrl p)
              ("https://" ++ shop ++ ".myshopify.com/products/" ++ node_handle p);
     price := price;
     imageUrl := imageUrl;
     imageAlt := imageAlt |}.

Definition img (p : ProductRecord) : string :=
  if truthy (imageUrl p)
  then tq "<img src='" ++
       imageUrl p ++
       tq "' alt='" ++
       esc (imageAlt p) ++
       tq "' width='56' height='56'
              style='display:block;border-radius:10px;object-fit:cover;border:1px solid #eee;'>"
  else tq "<div style='width:56px;height:56px;border-radius:10px;background:#f3f3f3;border:1px solid #eee;'></div>".

Definition priceLine (p : ProductRecord) : string :=
  if truthy (price p)
  then tq "<div style='margin-top:4px;color:#666;font-size:12px;'>" ++
       esc (price p) ++
       "</div>"
  else "".

Definition row (p : ProductRecord) : string :=
  trim (tq "
      <tr>
        <td style='padding:10px 0;border-top:1px solid #eee;vertical-align:top;width:68px;'>
          " ++
        img p ++
        tq "
        </td>
        <td style='padding:10px 0;border-top:1px solid #eee;vertical-align:top;'>
          <div style='color:#111;font-weight:600;'>
            " ++
        esc (title p) ++
        "
          </div>
          " ++
        priceLine p ++
        "
        </td>
      </tr>
    ").

Definition rows (products : list ProductRecord) : string :=
  join "
" (map row products).

Definition empty : string :=
  trim (tq "
    <tr>
      <td style='padding:10px 0;color:#666;'>No products found.</td>
    </tr>
  ").

Definition buildHtml (collectionTitle : string) (products : list ProductRecord)
    (collectionLink : string) : string :=
  trim (tq "
<a href='" ++
        collectionLink ++
        tq "' style='text-decoration:none;color:inherit;display:block;'>
  <div style='font-family:Arial,sans-serif;font-size:14px;line-height:1.4;color:#111;'>
    <div style='border:1px solid #eee;border-radius:12px;padding:14px 16px;background:#fff;'>
      <div style='font-size:16px;font-weight:700;'>" ++
        esc collectionTitle ++
        tq "</div>
      <div style='color:#666;font-size:12px;margin-top:2px;'>" ++
        dec (N.of_nat (List.length products)) ++
        " product" ++
        (if Nat.eqb (List.length products) 1 then "" else "s") ++
        tq "</div>

      <table role='presentation' cellpadding='0' cellspacing='0' style='width:100%;border-collapse:collapse;margin-top:10px;'>
        <tbody>
          " ++
        (if nonzero (List.length products) then rows products else empty) ++
        "
        </tbody>
      </table>
    </div>
  </div>
</a>
").

End Card.

(** ** The identifier resolver *)

(** [nextWeekHandleUTC(suffix)] when the clock reads [now]. *)
Definition nextWeekHandleUTC (now : Z) (suffix : string) : string :=
  let nextWeek :=
    match TimeClip (now + 7 * 86400000) with
    | Some nextWeekDate => isoWeekNumberUTC nextWeekDate
    | None => None
    end in
  "week-" ++ match nextWeek with Some w => decZ w | None => "NaN" end
          ++ "-" ++ suffix.

(** [process.argv[2] || nextWeekHandleUTC("plants")]; [argv2] is [None] when
    the script is started without an argument. *)
Definition handle (argv2 : option string) (now : Z) : string :=
  or_else argv2 (nextWeekHandleUTC now "plants").

(** ** The GraphQL client, the fetchers, the publisher and the run *)

Definition collectionQuery : string :=
  "query($handle:String!){
    collectionByHandle(handle:$handle){ id title }
  }".

Definition fullProductsQuery : string :=
  "query($first:Int!,$query:String!){
    products(first:$first, query:$query, sortKey:TITLE){
      edges{
        node{
          title
          handle
          onlineStoreUrl
          featuredImage {
            url
            altText
          }
          priceRangeV2 {
            minVariantPrice { amount currencyCode }
          }
        }
      }
    }
  }".

Definition shopQuery : string := "query{ shop{ id } }".

Definition metafieldsSetMutation : string :=
  "mutation($metafields:[MetafieldsSetInput!]!){
    metafieldsSet(metafields:$metafields){
      metafields{ id namespace key }
      userErrors{ field message }
    }
  }".

(** A computation that may throw, and that records the requests it sends. *)
Definition M (A : Type) : Type := list Request -> Result A * list Request.

Definition ret {A} (a : A) : M A := fun log => (Ok a, log).

Definition throw {A} (e : JsError) : M A := fun log => (Throw e, log).

Definition bind {A B} (c : M A) (k : A -> M B) : M B :=
  fun log =>
    match c log with
    | (Ok a, log') => k a log'
    | (Throw e, log') => (Throw e, log')
    end.

Notation "x <- c ;; k" := (bind c (fun x => k))
  (at level 61, c at next level, right associativity).

Definition ok (res : Response) : bool :=
  (200 <=? status res) && (status res <=? 299).

Definition collectionUrlFromHandle (shop h : string) : string :=
  "https://" ++ shop ++ ".myshopify.com/collections/" ++ h.

Record Outcome := {
  exitCode : Z;
  thrown : option JsError;
  requests : list Request
}.

Section Pipeline.

(** The shop, the endpoint's behaviour (a response to each request, given the
    requests before it), and the parts in which the three scripts differ. *)
Variable shop : string.
Variable remote : list Request -> Request -> Response.
Variable Product : Type.
Variable productsQuery : string.
Variable productRecord : string -> ProductNode -> Product.
Variable buildHtml : string -> list Product -> string -> string.

(** [await fetch(API, ...)]: the transport is taken to deliver a response. *)
Definition fetch (req : Request) : M Response :=
  fun log => (Ok (remote log req), (log ++ [req])%list).

Definition gql (query : string) (variables : Variables) : M (option Data) :=
  res <- fetch {| req_query := query; req_variables := variables |} ;;
  if negb (ok res)
  then throw (Error ("HTTP " ++ decZ (status res) ++ ": " ++ text res))
  else
    match parsed res with
    | None => throw (SyntaxError (text res))
    | Some JsonNull => throw TypeError
    | Some JsonOther => ret None
    | Some (JsonObject json) =>
        match errors json with
        | Some (e :: es) =>
            throw (ErrorWith "GraphQL errors: " (GraphQLErrorList (e :: es)))
        | _ => ret (data json)
        end
    end.

Definition getCollectionNumericId (h : string) : M (string * string) :=
  d <- gql collectionQuery (HandleVars h) ;;
  match (match d with Some (DataCollection c) => c | _ => None end) with
  | None => throw (Error ("Collection not found: " ++ h))
  | Some c => ret (collection_title c, last_segment (collection_id c))
  end.

Definition getProductsInCollection (numericId : string) (first : Z)
    : M (list Product) :=
  d <- gql productsQuery (ProductsVars first ("collection_id:" ++ numericId)) ;;
  ret (map (productRecord shop)
           (match d with Some (DataProducts (Some es)) => es | _ => [] end)).

Definition writeShopMetafield (html : string) : M unit :=
  d <- gql shopQuery NoVariables ;;
  match d with
  | Some (DataShop (Some shop)) =>
      let shopId := shop_id shop in
      let variables :=
        MetafieldsVars
          [ {| ownerId := shopId;
               namespace := "email";
               key := "collection_html_1";
               type_ := "multi_line_text_field";
               value := html |} ] in
      d <- gql metafieldsSetMutation variables ;;
      let errs :=
        match d with
        | Some (DataMetafieldsSet (Some payload)) =>
            match userErrors payload with Some l => l | None => [] end
        | _ => []
        end in
      match errs with
      | _ :: _ =>
          throw (ErrorWith "metafieldsSet userErrors: " (UserErrorList errs))
      | [] => ret tt
      end
  | _ => throw TypeError
  end.

(** The body of the [try] block. *)
Definition main (h : string) : M unit :=
  c <- getCollectionNumericId h ;;
  products <- getProductsInCollection (snd c) 50 ;;
  let html := buildHtml (fst c) products (collectionUrlFromHandle shop h) in
  writeShopMetafield html.

(** The run: exit code 1 after a throw, 0 otherwise. *)
Definition run (h : string) : Outcome :=
  match main h [] with
  | (Ok _, log) => {| exitCode := 0; thrown := None; requests := log |}
  | (Throw e, log) => {| exitCode := 1; thrown := Some e; requests := log |}
  end.

End Pipeline.

(** The three scripts. *)
Definition run_basic shop remote :=
  run shop remote Basic.ProductRecord Basic.productsQuery Basic.productRecord
      (fun t ps _ => Basic.buildHtml t ps).

Definition run_striped shop remote :=
  run shop remote ProductRecord fullProductsQuery Striped.productRecord
      Striped.buildHtml.

Definition run_card shop remote :=
  run shop remote ProductRecord fullProductsQuery Card.productRecord
      Card.buildHtml.

(** Is this request the metafield write? *)
Definition is_write (r : Request) : bool :=
  String.eqb (req_query r) metafieldsSetMutation.

(** ** Predicates used in the statements *)

(** A byte that is neither white space nor part of a multi-byte code point. *)
Definition plain (c : ascii) : bool := (code c <? 128)%N && negb (ws1 c).

(** The first byte after leading one-byte white space is plain; the last
    byte before trailing one-byte white space is. *)
Fixpoint starts_plain (s : string) : bool :=
  match s with
  | EmptyString => false
  | String c r => if ws1 c then starts_plain r else plain c
  end.

Definition ends_plain (s : string) : bool := starts_plain (rev s).


(** What [esc] writes for one byte. *)
Definition esc1 (c : ascii) : string :=
  if Ascii.eqb c "&" then "&amp;"
  else if Ascii.eqb c "<" then "&lt;"
  else if Ascii.eqb c ">" then "&gt;"
  else if Ascii.eqb c "034" then tq "&quot;"
  else String c "".

(** No raw [<], [>] or double quote, and every [&] opens one of the four
    entities [esc] writes. *)
Fixpoint html_safe (s : string) : bool :=
  match s with
  | EmptyString => true
  | String c r =>
      if Ascii.eqb c "<" || Ascii.eqb c ">" || Ascii.eqb c "034" then false
      else if Ascii.eqb c "&"
      then (String.prefix "amp;" r || String.prefix "lt;" r
            || String.prefix "gt;" r || String.prefix "quot;" r) && html_safe r
      else html_safe r
  end.

Definition is_digit (c : ascii) : bool := ((48 <=? code c) && (code c <=? 57))%N.

Fixpoint all_digits (s : string) : bool :=
  match s with
  | EmptyString => true
  | String c r => is_digit c && all_digits r
  end.

(** The number a string of decimal digits denotes. *)
Fixpoint digits_value_acc (acc : N) (s : string) : N :=
  match s with
  | EmptyString => acc
  | String c r => digits_value_acc (acc * 10 + (code c - 48))%N r
  end.

Definition digits_value (s : string) : N := digits_value_acc 0 s.

(** A finite double of magnitude below 10^21. *)
Definition below_1e21 (x : spec_float) : bool :=
  match x with
  | S754_zero _ => true
  | S754_finite _ m e => negb (ge_1e21 m e)
  | _ => false
  end.

(** [n] is an integer nearest to 100 * |x|. *)
Definition nearest_hundredth (x : spec_float) (n : Z) : Prop :=
  match x with
  | S754_zero _ => n = 0
  | S754_finite _ m e =>
      if 0 <=? e then n = 100 * Zpos m * 2 ^ e
      else Z.abs (2 * (100 * Zpos m - n * 2 ^ (- e))) <= 2 ^ (- e)
  | _ => False
  end.

(** [s] writes [x] with exactly two decimals: an optional minus sign, at
    least one digit, a point and two digits, denoting 100 * |x| rounded to the
    nearest integer. *)
Definition two_decimals (x : spec_float) (s : string) : Prop :=
  exists int frac,
    s = (match x with S754_finite true _ _ => "-" | _ => "" end)
        ++ int ++ "." ++ frac /\
    int <> "" /\ all_digits int = true /\
    String.length frac = 2%nat /\ all_digits frac = true /\
    nearest_hundredth x (Z.of_N (digits_value (int ++ frac))).

(** A response that passes [gql] and hands [d] to the caller: an object
    without errors, whose [data] is [d], or a value that is neither [null]
    nor an object, for which [d] is [undefined]. *)
Definition delivers (res : Response) (d : option Data) : Prop :=
  ok res = true /\
  ((parsed res = Some JsonOther /\ d = None) \/
   exists json, parsed res = Some (JsonObject json) /\
     (errors json = None \/ errors json = Some []) /\ data json = d).


(** An endpoint for examples: one collection with one product, shop
    [gid://shopify/Shop/1], and a write that reports [ue]. *)
Definition example_remote (ue : option (list UserError))
    (_ : list Request) (req : Request) : Response :=
  let answer d :=
    {| status := 200; text := "{}";
       parsed := Some (JsonObject {| errors := None; data := Some d |}) |} in
  if String.eqb (req_query req) collectionQuery then
    answer (DataCollection
              (Some {| collection_id := "gid://shopify/Collection/42";
                       collection_title := "Week 46" |}))
  else if String.eqb (req_query req) shopQuery then
    answer (DataShop (Some {| shop_id := Some "gid://shopify/Shop/1" |}))
  else if String.eqb (req_query req) metafieldsSetMutation then
    answer (DataMetafieldsSet (Some {| userErrors := ue |}))
  else
    answer (DataProducts
              (Some [ {| node_title := Some "Rose"; node_handle := "rose";
                         onlineStoreUrl := None; featuredImage := None;
                         minVariantPrice :=
                           Some {| amount := "12.5"; currencyCode := "USD" |} |} ])).

(** An endpoint that answers every request with the same response. *)
Definition constant_remote (res : Response) (_ : list Request) (_ : Request)
    : Response := res.

(** ** Predicates used in the further statements *)

(** None of the four bytes [esc] replaces. *)
Fixpoint no_special (s : string) : bool :=
  match s with
  | EmptyString => true
  | String c r =>
      negb (Ascii.eqb c "&" || Ascii.eqb c "<" || Ascii.eqb c ">"
            || Ascii.eqb c "034") && no_special r
  end.

(** No raw [<] or [>], and every [&] opens one of the three entities the
    first script writes. *)
Fixpoint basic_safe (s : string) : bool :=
  match s with
  | EmptyString => true
  | String c r =>
      if Ascii.eqb c "<" || Ascii.eqb c ">" then false
      else if Ascii.eqb c "&"
      then (String.prefix "amp;" r || String.prefix "lt;" r
            || String.prefix "gt;" r) && basic_safe r
      else basic_safe r
  end.

Fixpoint no_slash (s : string) : bool :=
  match s with
  | EmptyString => true
  | String c r => negb (Ascii.eqb c "/") && no_slash r
  end.

(** The number of bytes equal to [c]. *)
Fixpoint occurrences (c : ascii) (s : string) : nat :=
  match s with
  | EmptyString => O
  | String a r => ((if Ascii.eqb a c then 1 else 0) + occurrences c r)%nat
  end.

(** [d?.metafieldsSet?.userErrors || []], the list [writeShopMetafield] tests. *)
Definition errs_of (d : option Data) : list UserError :=
  match d with
  | Some (DataMetafieldsSet (Some payload)) =>
      match userErrors payload with Some l => l | None => [] end
  | _ => []
  end.

(** The script from its first line: the handle is resolved, the two
    environment variables are tested, and the run starts.  The endpoint
    reached depends on the shop (in the address) and the token (in a header). *)
Definition script (env_shop env_token argv2 : option string) (now : Z)
    (remote : string -> string -> list Request -> Request -> Response)
    (Product : Type) (productsQuery : string)
    (productRecord : string -> ProductNode -> Product)
    (buildHtml : string -> list Product -> string -> string) : Outcome :=
  let h := handle argv2 now in
  match env_shop, env_token with
  | Some shop, Some token =>
      if negb (truthy shop) || negb (truthy token)
      then {| exitCode := 1; thrown := None; requests := [] |}
      else run shop (remote shop token) Product productsQuery productRecord
               buildHtml h
  | _, _ => {| exitCode := 1; thrown := None; requests := [] |}
  end.

(** * Proofs *)

(** ** Calendar arithmetic *)

Ltac split_ifs :=
  repeat match goal with
  | |- context [if ?a <? ?b then _ else _] => destruct (Z.ltb_spec a b)
  | |- context [if ?a <=? ?b then _ else _] => destruct (Z.leb_spec a b)
  | |- context [if ?a =? ?b then _ else _] => destruct (Z.eqb_spec a b)
  | |- context [if negb (?a =? ?b) then _ else _] => destruct (Z.eqb_spec a b); cbn [negb]
  end.
Ltac zlia := Z.div_mod_to_equations; lia.

Lemma YearFromDay_spec d :
  DayFromYear (YearFromDay d) <= d < DayFromYear (YearFromDay d + 1).
Proof.
  unfold YearFromDay. cbv zeta. split_ifs.
  all: unfold DayFromYear in *; zlia.
Qed.

Lemma DayFromYear_succ y : DayFromYear (y + 1) = DayFromYear y + DaysInYear y.
Proof.
  unfold DayFromYear, DaysInYear, isLeap.
  split_ifs; zlia.
Qed.

Lemma DayFromYear_smono y y' : y < y' -> DayFromYear (y+1) <= DayFromYear y'.
Proof. unfold DayFromYear. zlia. Qed.

Lemma YearFromDay_unique d y : DayFromYear y <= d < DayFromYear (y + 1) -> YearFromDay d = y.
Proof.
  intros H. pose proof (YearFromDay_spec d) as S.
  destruct (Z.lt_trichotomy (YearFromDay d) y) as [L|[E|G]]; auto.
  - apply DayFromYear_smono in L. lia.
  - apply DayFromYear_smono in G. lia.
Qed.

Lemma DaysInYear_cases y : DaysInYear y = 365 \/ DaysInYear y = 366.
Proof. unfold DaysInYear. destruct (isLeap y); auto. Qed.

Lemma DayWithinYear_bounds t :
  0 <= DayWithinYear t < DaysInYear (YearFromTime t).
Proof.
  unfold DayWithinYear, YearFromTime.
  pose proof (YearFromDay_spec (Day t)). rewrite DayFromYear_succ in H. lia.
Qed.

Lemma MonthFromTime_range t : 0 <= MonthFromTime t <= 11.
Proof. unfold MonthFromTime. cbv zeta. split_ifs; lia. Qed.

(** [MakeDay] undoes the split of a time value into year, month and date. *)
Lemma MakeDay_roundtrip t dt :
  MakeDay (YearFromTime t) (MonthFromTime t) dt = Day t - DateFromTime t + dt.
Proof.
  pose proof (DayWithinYear_bounds t) as B.
  unfold MakeDay, monthStart, DateFromTime, MonthFromTime. cbv zeta.
  unfold DaysInYear, InLeapYear in *.
  set (y := YearFromTime t) in *.
  assert (E : Day t = DayFromYear y + DayWithinYear t) by (unfold DayWithinYear; fold y; lia).
  set (w := DayWithinYear t) in *. clearbody w y.
  destruct (isLeap y) eqn:L.
  all: split_ifs; try lia.
  all: rewrite Z.div_small, Z.mod_small, Z.add_0_r by lia.
  all: rewrite ?Z.add_0_r, ?L; lia.
Qed.

Import ISO8601.

Lemma Day_MakeDate d : Day (MakeDate d 0) = d.
Proof. unfold Day, MakeDate, msPerDay. zlia. Qed.

Lemma TimeWithinDay_MakeDate d : TimeWithinDay (MakeDate d 0) = 0.
Proof. unfold TimeWithinDay, MakeDate, msPerDay. zlia. Qed.

Lemma MakeFullYear_id y : ~ legacy_year y -> MakeFullYear y = y.
Proof.
  unfold MakeFullYear, legacy_year. intros H.
  destruct (Z.leb_spec 0 y), (Z.leb_spec y 99); cbn [andb]; lia.
Qed.

Lemma TimeClip_in_range t : in_time_range t -> TimeClip t = Some t.
Proof. unfold TimeClip, in_time_range. intros H. split_ifs; [reflexivity | lia]. Qed.

(** Thursdays are the day numbers divisible by 7. *)
Lemma thursday_eq d : thursday d = 7 * ((d + 3) / 7).
Proof. unfold thursday, isoDayOfWeek. zlia. Qed.

Lemma firstThursday_eq y : firstThursday y = 7 * ((DayFromYear y + 6) / 7).
Proof. unfold firstThursday, isoDayOfWeek. cbv zeta. zlia. Qed.

(** On its domain the script computes the specification's algorithm. *)
Lemma isoWeekNumberUTC_specWeek t :
  week_defined t -> isoWeekNumberUTC t = Some (specWeek (Day t)).
Proof.
  intros (R & Ly & Ly' & Ry).
  unfold isoWeekNumberUTC, Date_UTC, getUTCFullYear, getUTCMonth, getUTCDate, getUTCDay, setUTCDate.
  rewrite (MakeFullYear_id _ Ly), MakeDay_roundtrip.
  replace (Day t - DateFromTime t + DateFromTime t) with (Day t) by lia.
  rewrite TimeClip_in_range by (unfold in_time_range, MakeDate, Day, msPerDay in *; zlia).
  set (d := MakeDate (Day t) 0).
  assert (Hd : Day d = Day t) by apply Day_MakeDate.
  assert (Hw : TimeWithinDay d = 0) by apply TimeWithinDay_MakeDate.
  rewrite MakeDay_roundtrip, Hw. unfold WeekDay. rewrite Hd.
  assert (Th : Day t - DateFromTime d +
      (DateFromTime d + 4 - (if (Day t + 4) mod 7 =? 0 then 7 else (Day t + 4) mod 7))
      = thursday (Day t)).
  { unfold thursday, isoDayOfWeek. split_ifs; zlia. }
  rewrite Th. clear Th.
  rewrite TimeClip_in_range
    by (rewrite thursday_eq; unfold in_time_range, MakeDate, Day, msPerDay in *; zlia).
  unfold YearFromTime. rewrite Day_MakeDate.
  set (th := thursday (Day t)) in *. set (y' := YearFromDay th) in *.
  rewrite (MakeFullYear_id _ Ly').
  unfold MakeDay. rewrite Z.div_small, Z.mod_small, Z.add_0_r by lia.
  unfold monthStart. cbv iota.
  rewrite TimeClip_in_range
    by (unfold in_time_range, TimeFromYear, MakeDate, msPerDay in *; lia).
  unfold specWeek. fold th. fold y'. cbv zeta. f_equal.
  unfold MakeDate, msPerDay. zlia.
Qed.

(** The week-numbering year of [d] is the calendar year of its Thursday. *)
Lemma weekYear_thursday d : weekYear d = YearFromDay (thursday d).
Proof.
  pose proof (YearFromDay_spec d) as Sd.
  pose proof (YearFromDay_spec (thursday d)) as St.
  unfold weekYear. cbv zeta.
  set (y := YearFromDay d) in *. set (y' := YearFromDay (thursday d)) in *.
  assert (Hy : y = y' - 1 \/ y = y' \/ y = y' + 1).
  { destruct (Z.lt_trichotomy y (y' - 1)) as [L|[E|G]]; auto.
    - assert (L' : y < y' - 1) by lia. apply DayFromYear_smono in L'.
      pose proof (DayFromYear_succ (y' - 1)) as S1.
      replace (y' - 1 + 1) with y' in S1 by lia.
      pose proof (DaysInYear_cases (y' - 1)). rewrite thursday_eq in St. zlia.
    - destruct (Z.lt_trichotomy y (y' + 1)) as [L|[E|G']]; auto; [lia|].
      apply DayFromYear_smono in G'.
      pose proof (DayFromYear_succ (y' + 1)) as S1.
      pose proof (DaysInYear_cases (y' + 1)). rewrite thursday_eq in St. zlia. }
  unfold week1Monday. rewrite !firstThursday_eq. rewrite thursday_eq in St.
  pose proof (DayFromYear_succ y) as S1. pose proof (DaysInYear_cases y).
  pose proof (DayFromYear_succ y') as S2. pose proof (DaysInYear_cases y').
  pose proof (DayFromYear_succ (y' - 1)) as S3. pose proof (DaysInYear_cases (y' - 1)).
  replace (y' - 1 + 1) with y' in S3 by lia.
  destruct Hy as [E|[E|E]]; rewrite E in *.
  - replace (y' - 1 + 1) with y' in * by lia. split_ifs; zlia.
  - split_ifs; zlia.
  - split_ifs; zlia.
Qed.

(** Every day lies in week 1..53 of its week-numbering year. *)
Lemma weekYear_interval d :
  week1Monday (weekYear d) <= d < week1Monday (weekYear d + 1).
Proof.
  rewrite weekYear_thursday.
  pose proof (YearFromDay_spec (thursday d)) as St.
  unfold week1Monday. rewrite !firstThursday_eq. rewrite thursday_eq in *. zlia.
Qed.

Lemma specWeek_weekNumber d : specWeek d = weekNumber d.
Proof.
  unfold specWeek, weekNumber. rewrite weekYear_thursday. cbv zeta.
  pose proof (YearFromDay_spec (thursday d)) as St.
  unfold week1Monday. rewrite firstThursday_eq. rewrite thursday_eq in *.
  zlia.
Qed.

Lemma weekNumber_range d : 1 <= weekNumber d <= 53.
Proof.
  pose proof (weekYear_interval d) as I. unfold weekNumber.
  set (y := weekYear d) in *. unfold week1Monday in *. rewrite !firstThursday_eq in *.
  pose proof (DayFromYear_succ y). pose proof (DaysInYear_cases y). zlia.
Qed.

(** ** Strings *)

Lemma append_assoc (a b c : string) : (a ++ b) ++ c = a ++ (b ++ c).
Proof. induction a as [|x a IH]; cbn; [reflexivity | now rewrite IH]. Qed.

Lemma append_nil_r (a : string) : a ++ "" = a.
Proof. induction a as [|x a IH]; cbn; [reflexivity | now rewrite IH]. Qed.

Lemma length_append (a b : string) :
  String.length (a ++ b) = (String.length a + String.length b)%nat.
Proof. induction a as [|x a IH]; cbn; [reflexivity | now rewrite IH]. Qed.

Lemma rev_append (a b : string) : rev (a ++ b) = rev b ++ rev a.
Proof.
  induction a as [|x a IH]; cbn.
  - now rewrite append_nil_r.
  - now rewrite IH, append_assoc.
Qed.

Lemma rev_involutive (a : string) : rev (rev a) = a.
Proof.
  induction a as [|x a IH]; cbn; [reflexivity|].
  now rewrite rev_append, IH.
Qed.

(** *** Trimming *)

Lemma plain_not_ws2 a b : plain a = true -> ws2 a b = false.
Proof.
  unfold plain, ws2. intros H. apply andb_true_iff in H as [H _].
  apply N.ltb_lt in H. destruct (N.eqb_spec (code a) 194); [lia | reflexivity].
Qed.

Lemma plain_not_ws2_snd a b : plain b = true -> ws2 a b = false.
Proof.
  unfold plain, ws2. intros H. apply andb_true_iff in H as [H _].
  apply N.ltb_lt in H. destruct (N.eqb_spec (code b) 160); [lia | apply andb_false_r].
Qed.

Lemma plain_not_ws3 a b c : plain a = true -> ws3 a b c = false.
Proof.
  unfold plain, ws3. intros H. apply andb_true_iff in H as [H _].
  apply N.ltb_lt in H. cbv zeta.
  destruct (N.eqb_spec (code a) 225), (N.eqb_spec (code a) 226),
    (N.eqb_spec (code a) 227), (N.eqb_spec (code a) 239); try lia; reflexivity.
Qed.

Lemma plain_not_ws3_last a b c : plain c = true -> ws3 a b c = false.
Proof.
  unfold plain, ws3. intros H. apply andb_true_iff in H as [H _].
  apply N.ltb_lt in H. cbv zeta.
  destruct (N.eqb_spec (code c) 128), (N.leb_spec 128 (code c)),
    (N.eqb_spec (code c) 168), (N.eqb_spec (code c) 169),
    (N.eqb_spec (code c) 175), (N.eqb_spec (code c) 159),
    (N.eqb_spec (code c) 191); try lia;
    cbn; rewrite ?andb_false_r; reflexivity.
Qed.

Lemma plain_not_ws1 a : plain a = true -> ws1 a = false.
Proof.
  unfold plain. intros H. apply andb_true_iff in H as [_ H].
  now apply negb_true_iff in H.
Qed.

Section Strip.

Variable p2 : ascii -> ascii -> bool.
Variable p3 : ascii -> ascii -> ascii -> bool.
Hypothesis plain_p2 : forall a b, plain a = true -> p2 a b = false.
Hypothesis plain_p3 : forall a b c, plain a = true -> p3 a b c = false.

Lemma strip_plain a r : plain a = true -> strip ws1 p2 p3 (String a r) = String a r.
Proof.
  intros H. cbn. rewrite (plain_not_ws1 _ H).
  destruct r as [|b [|c r]]; try reflexivity.
  - now rewrite plain_p2.
  - now rewrite plain_p2, plain_p3.
Qed.

Lemma strip_append a b :
  starts_plain a = true -> strip ws1 p2 p3 (a ++ b) = strip ws1 p2 p3 a ++ b.
Proof.
  induction a as [|c a IH]; cbn [starts_plain append]; [discriminate|].
  destruct (ws1 c) eqn:W.
  - intros H. cbn. rewrite W. now apply IH.
  - intros H. now rewrite !strip_plain.
Qed.

End Strip.

Lemma starts_plain_append a b :
  starts_plain a = true -> starts_plain (a ++ b) = true.
Proof.
  induction a as [|c a IH]; cbn [starts_plain append]; [discriminate|].
  destruct (ws1 c); auto.
Qed.

Lemma ends_plain_append a b : ends_plain b = true -> ends_plain (a ++ b) = true.
Proof.
  unfold ends_plain. intros H. rewrite rev_append. now apply starts_plain_append.
Qed.

Lemma trimStart_append a b :
  starts_plain a = true -> trimStart (a ++ b) = trimStart a ++ b.
Proof.
  apply strip_append.
  - apply plain_not_ws2.
  - apply plain_not_ws3.
Qed.

Lemma trimEnd_append a b :
  ends_plain b = true -> trimEnd (a ++ b) = a ++ trimEnd b.
Proof.
  intros H. unfold trimEnd. rewrite rev_append.
  rewrite strip_append.
  - now rewrite rev_append, rev_involutive.
  - intros x y Hx. now apply plain_not_ws2_snd.
  - intros x y z Hx. now apply plain_not_ws3_last.
  - exact H.
Qed.

(** A template that opens with a literal and closes with a literal is trimmed
    at the two literals only. *)
Lemma trim_append a b :
  starts_plain a = true -> ends_plain b = true ->
  trim (a ++ b) = trimStart a ++ trimEnd b.
Proof.
  intros Ha Hb. unfold trim.
  now rewrite trimStart_append, trimEnd_append.
Qed.

Ltac ends_plain_tac :=
  repeat (apply ends_plain_append); vm_compute; reflexivity.

(** *** Escaping *)

Lemma replaceAll_append c by_ a b :
  replaceAll c by_ (a ++ b) = replaceAll c by_ a ++ replaceAll c by_ b.
Proof.
  induction a as [|x a IH]; cbn; [reflexivity|].
  now rewrite IH, append_assoc.
Qed.

(** The four passes of [esc] amount to one pass, byte by byte: no later pass
    touches what an earlier one wrote. *)
Lemma esc_cons c s : esc (String c s) = esc1 c ++ esc s.
Proof.
  unfold esc, esc1. cbn [replaceAll].
  destruct (Ascii.eqb_spec c "&") as [->|Hamp].
  { rewrite !replaceAll_append. reflexivity. }
  destruct (Ascii.eqb_spec c "<") as [->|Hlt].
  { rewrite !replaceAll_append. reflexivity. }
  destruct (Ascii.eqb_spec c ">") as [->|Hgt].
  { rewrite !replaceAll_append. reflexivity. }
  destruct (Ascii.eqb_spec c "034") as [->|Hq].
  { rewrite !replaceAll_append. reflexivity. }
  rewrite !replaceAll_append. cbn [replaceAll append].
  apply Ascii.eqb_neq in Hlt, Hgt, Hq. rewrite Hlt. cbn [replaceAll append].
  rewrite Hgt. cbn [replaceAll append]. rewrite Hq. reflexivity.
Qed.

Lemma prefix_nil s : String.prefix "" s = true.
Proof. destruct s; reflexivity. Qed.

Lemma html_safe_esc s : html_safe (esc s) = true.
Proof.
  induction s as [|c s IH]; [reflexivity|].
  rewrite esc_cons. unfold esc1.
  destruct (Ascii.eqb_spec c "&") as [->|Hamp]; [cbn; rewrite prefix_nil; exact IH|].
  destruct (Ascii.eqb_spec c "<") as [->|Hlt]; [cbn; rewrite prefix_nil; exact IH|].
  destruct (Ascii.eqb_spec c ">") as [->|Hgt]; [cbn; rewrite prefix_nil; exact IH|].
  destruct (Ascii.eqb_spec c "034") as [->|Hq]; [cbn; rewrite prefix_nil; exact IH|].
  cbn [append html_safe].
  apply Ascii.eqb_neq in Hamp, Hlt, Hgt, Hq. now rewrite Hamp, Hlt, Hgt, Hq.
Qed.

(** ** Decimal digits *)

Lemma digits_value_acc_append acc a b :
  digits_value_acc acc (a ++ b) = digits_value_acc (digits_value_acc acc a) b.
Proof. revert acc. induction a as [|c a IH]; intros acc; cbn; auto. Qed.

Lemma all_digits_append a b :
  all_digits (a ++ b) = all_digits a && all_digits b.
Proof.
  induction a as [|c a IH]; cbn; [reflexivity|].
  now rewrite IH, andb_assoc.
Qed.

Lemma digits_value_repeat0 n s :
  digits_value (repeat0 n ++ s) = digits_value s.
Proof. induction n as [|n IH]; cbn; [reflexivity | exact IH]. Qed.

Lemma all_digits_repeat0 n : all_digits (repeat0 n) = true.
Proof. induction n; cbn; auto. Qed.

Lemma length_repeat0 n : String.length (repeat0 n) = n.
Proof. induction n; cbn; auto. Qed.

Lemma all_digits_string_of_uint d :
  all_digits (NilEmpty.string_of_uint d) = true.
Proof. induction d; cbn; auto. Qed.

Ltac digit_step :=
  match goal with
  | |- context [(code ?c - 48)%N] =>
      let v := eval vm_compute in (code c - 48)%N in
      change (code c - 48)%N with v
  end.

Lemma digits_value_acc_string_of_uint d acc :
  digits_value_acc (Npos acc) (NilEmpty.string_of_uint d)
  = Npos (Pos.of_uint_acc d acc).
Proof.
  revert acc.
  induction d; intros acc;
    cbn [NilEmpty.string_of_uint digits_value_acc Pos.of_uint_acc];
    [reflexivity | ..];
    rewrite <- IHd; f_equal; digit_step; lia.
Qed.

Lemma digits_value_string_of_uint d :
  digits_value (NilEmpty.string_of_uint d) = Pos.of_uint d.
Proof.
  unfold digits_value.
  induction d; cbn [NilEmpty.string_of_uint digits_value_acc Pos.of_uint];
    [reflexivity | exact IHd | ..];
    rewrite <- digits_value_acc_string_of_uint; f_equal.
Qed.

Lemma to_uint_nonnil n : N.to_uint n <> Decimal.Nil.
Proof.
  destruct n as [|p]; [discriminate|].
  apply DecimalPos.Unsigned.to_uint_nonnil.
Qed.

Lemma dec_value n : digits_value (dec n) = n.
Proof.
  unfold dec, NilZero.string_of_uint.
  pose proof (to_uint_nonnil n) as H.
  destruct (N.to_uint n) eqn:E; [tauto | ..];
    rewrite <- E, digits_value_string_of_uint; apply DecimalN.Unsigned.of_to.
Qed.

Lemma dec_all_digits n : all_digits (dec n) = true.
Proof.
  unfold dec, NilZero.string_of_uint.
  destruct (N.to_uint n) eqn:E; try (rewrite <- E; apply all_digits_string_of_uint).
  reflexivity.
Qed.

(** ** Fixed-point notation *)

Lemma substring_split (s : string) (i : nat) :
  (i <= String.length s)%nat ->
  substring 0 i s ++ substring i (String.length s - i) s = s.
Proof.
  revert i. induction s as [|c s IH]; intros i Hi.
  - destruct i; [reflexivity | cbn in Hi; lia].
  - destruct i as [|i]; cbn.
    + f_equal. specialize (IH 0%nat (Nat.le_0_l _)).
      rewrite Nat.sub_0_r in IH. destruct s; [reflexivity|]. cbn in IH |- *.
      exact IH.
    + f_equal. apply IH. cbn in Hi. lia.
Qed.

Lemma length_substring (s : string) (i n : nat) :
  (i + n <= String.length s)%nat -> String.length (substring i n s) = n.
Proof.
  revert i n. induction s as [|c s IH]; intros i n H.
  - cbn in H. assert (i = 0 /\ n = 0)%nat as [-> ->] by lia. reflexivity.
  - destruct i as [|i]; cbn.
    + destruct n as [|n]; [reflexivity|]. cbn. f_equal. apply IH. cbn in H. lia.
    + apply IH. cbn in H. lia.
Qed.

(** The text [fixed_digits] writes for two decimals. *)
Lemma fixed_digits_2 n :
  exists int frac,
    fixed_digits n 2 = int ++ "." ++ frac /\
    int <> "" /\ all_digits int = true /\
    String.length frac = 2%nat /\ all_digits frac = true /\
    digits_value (int ++ frac) = n.
Proof.
  unfold fixed_digits.
  set (m := if (String.length (dec n) <=? 2)%nat
            then repeat0 (2 + 1 - String.length (dec n)) ++ dec n else dec n).
  assert (Hlen : (3 <= String.length m)%nat).
  { unfold m. destruct (Nat.leb_spec (String.length (dec n)) 2).
    - rewrite length_append, length_repeat0. lia.
    - lia. }
  assert (Hdig : all_digits m = true).
  { unfold m. destruct (String.length (dec n) <=? 2)%nat.
    - now rewrite all_digits_append, all_digits_repeat0, dec_all_digits.
    - apply dec_all_digits. }
  assert (Hval : digits_value m = n).
  { unfold m. destruct (String.length (dec n) <=? 2)%nat.
    - rewrite digits_value_repeat0. apply dec_value.
    - apply dec_value. }
  cbv zeta.
  pose proof (substring_split m (String.length m - 2)) as S.
  replace (String.length m - (String.length m - 2))%nat with 2%nat in S by lia.
  specialize (S ltac:(lia)).
  exists (substring 0 (String.length m - 2) m), (substring (String.length m - 2) 2 m).
  rewrite S. rewrite <- S, all_digits_append in Hdig.
  apply andb_true_iff in Hdig as [D1 D2].
  repeat split; auto.
  - intros E. apply (f_equal String.length) in E.
    rewrite length_substring in E by lia. cbn in E. lia.
  - apply length_substring. lia.
Qed.

Lemma nearest_scaled_2 s m e :
  0 <= nearest_scaled m e 2 /\
  nearest_hundredth (S754_finite s m e) (nearest_scaled m e 2).
Proof.
  unfold nearest_scaled, nearest_hundredth.
  change (10 ^ Z.of_nat 2) with 100. cbv zeta.
  destruct (Z.leb_spec 0 e) as [He|He].
  - split; [|ring].
    pose proof (Z.pow_nonneg 2 e ltac:(lia)). nia.
  - assert (HD : 0 < 2 ^ (- e)) by (apply Z.pow_pos_nonneg; lia).
    set (D := 2 ^ (- e)) in *.
    pose proof (Z.div_mod (2 * (Z.pos m * 100) + D) (2 * D) ltac:(lia)) as E.
    pose proof (Z.mod_pos_bound (2 * (Z.pos m * 100) + D) (2 * D) ltac:(lia)) as B.
    set (q := (2 * (Z.pos m * 100) + D) / (2 * D)) in *.
    set (r := (2 * (Z.pos m * 100) + D) mod (2 * D)) in *.
    split; [nia|].
    replace (2 * (100 * Z.pos m - q * D)) with (r - D) by lia.
    lia.
Qed.

(** Below 10^21, [toFixed(2)] writes exactly two decimals. *)
Lemma toFixed_two_decimals x :
  isFinite x = true -> below_1e21 x = true -> two_decimals x (toFixed x 2).
Proof.
  destruct x as [s| |  |s m e]; try discriminate; intros _ B.
  - destruct (fixed_digits_2 0) as (int & frac & E & H1 & H2 & H3 & H4 & V).
    exists int, frac. cbn [toFixed]. rewrite E, V. repeat split; auto.
  - cbn in B. apply negb_true_iff in B.
    destruct (nearest_scaled_2 s m e) as [N0 NH].
    destruct (fixed_digits_2 (Z.to_N (nearest_scaled m e 2)))
      as (int & frac & E & H1 & H2 & H3 & H4 & V).
    exists int, frac. cbn [toFixed]. rewrite B, E, V, Z2N.id by assumption.
    repeat split; auto.
Qed.

Lemma truthy_nonempty s : s <> "" -> truthy s = true.
Proof.
  intros H. unfold truthy. apply negb_true_iff. now apply String.eqb_neq.
Qed.






(** ** The renderers *)

Lemma peel (x p rest tail : string) :
  rest = p ++ tail -> x ++ rest = (x ++ p) ++ tail.
Proof. intros ->. now rewrite append_assoc. Qed.

Lemma frame_here (x rest : string) : x ++ rest = "" ++ x ++ rest.
Proof. reflexivity. Qed.

Lemma frame_then (x rest tail : string) :
  rest = tail -> x ++ rest = "" ++ x ++ tail.
Proof. now intros ->. Qed.

Lemma app_cong (a a' x x' : string) : a = a' -> x = x' -> a ++ x = a' ++ x'.
Proof. now intros -> ->. Qed.

(** Rewrites the [trim] of a template to the template with its two outer
    literals trimmed. *)
Ltac trim_template :=
  repeat (rewrite trim_append by first [ vm_compute; reflexivity | ends_plain_tac ];
          repeat (rewrite trimEnd_append by ends_plain_tac)).

(** Right-nests the appends of the left-hand side only: the right-hand side
    holds the unknown frame. *)
Ltac chain_lhs :=
  match goal with
  | |- _ = ?R => let rhs := fresh "rhs" in
                 set (rhs := R); repeat rewrite append_assoc; subst rhs
  end.

(** Finds the piece [x] in a right-nested chain of appends. *)
Ltac find_frame x :=
  first [ apply (frame_here x) | apply peel; find_frame x ].

(** Matches two chains piece by piece as far as the pieces agree, then byte
    by byte. *)
Ltac align :=
  repeat (apply app_cong; [reflexivity|]);
  cbn [append tq Ascii.eqb Bool.eqb]; reflexivity.

(** Matches two chains piece by piece. *)
Ltac pieces := repeat (apply app_cong; [reflexivity|]); reflexivity.

(** Finds the piece [x] in a right-nested chain, and after it the pieces
    of the right-hand side. *)
Ltac find_pieces x :=
  first [ apply (frame_then x); pieces | apply peel; find_pieces x ].

Lemma join_middle sep (l1 l2 : list string) :
  exists a b, forall x, join sep (l1 ++ x :: l2)%list = a ++ x ++ b.
Proof.
  assert (T : exists b, forall x, join sep (x :: l2) = x ++ b).
  { destruct l2 as [|y l2].
    - exists "". intros x. cbn. now rewrite append_nil_r.
    - exists (sep ++ join sep (y :: l2)). intros x. reflexivity. }
  destruct T as (b & Hb).
  induction l1 as [|y l1 (a & b' & IH)].
  - exists "", b. intros x. cbn [app]. now rewrite Hb.
  - exists (y ++ sep ++ a), b'. intros x. cbn [app].
    change (join sep (y :: (l1 ++ x :: l2)%list))
      with (match (l1 ++ x :: l2)%list with
            | [] => y
            | _ :: _ => y ++ sep ++ join sep (l1 ++ x :: l2)%list
            end).
    destruct (l1 ++ x :: l2)%list eqn:E.
    + destruct l1; discriminate.
    + rewrite <- E, IH. now rewrite !append_assoc.
Qed.

Lemma join_cons_nonempty sep x l : x <> "" -> join sep (x :: l) <> "".
Proof.
  intros H. destruct l as [|y l]; cbn; [assumption|].
  destruct x; [contradiction | discriminate].
Qed.

Lemma nonzero_length_middle {A} (l1 l2 : list A) x :
  nonzero (List.length (l1 ++ x :: l2)%list) = true.
Proof. rewrite length_app. cbn. now rewrite Nat.add_succ_r. Qed.

Lemma rows_from_middle i (l1 l2 : list ProductRecord) p :
  Striped.rows_from i (l1 ++ p :: l2)%list =
  (Striped.rows_from i l1 ++
   Striped.row (i + List.length l1) p ::
   Striped.rows_from (S (i + List.length l1)) l2)%list.
Proof.
  revert i. induction l1 as [|q l1 IH]; intros i; cbn.
  - now rewrite Nat.add_0_r.
  - rewrite IH. now rewrite !Nat.add_succ_r.
Qed.

Lemma Basic_items_truthy ps :
  truthy (join "
" (map Basic.item ps)) = nonzero (List.length ps).
Proof.
  destruct ps as [|p ps]; [reflexivity|].
  cbn [map List.length nonzero Nat.eqb negb].
  apply truthy_nonempty, join_cons_nonempty. discriminate.
Qed.

(** The text of one product in each renderer's output, wherever the product
    stands in the list; [pre] and [post] are the text around it. *)
Lemma Card_row_in_output ct link ps1 ps2 :
  exists pre post, forall p,
    Card.buildHtml ct (ps1 ++ p :: ps2)%list link
    = pre ++
      tq "<tr>
        <td style='padding:10px 0;border-top:1px solid #eee;vertical-align:top;width:68px;'>
          " ++
      (if truthy (imageUrl p)
       then tq "<img src='" ++ imageUrl p ++ tq "' alt='" ++ esc (imageAlt p) ++
            tq "' width='56' height='56'
              style='display:block;border-radius:10px;object-fit:cover;border:1px solid #eee;'>"
       else tq "<div style='width:56px;height:56px;border-radius:10px;background:#f3f3f3;border:1px solid #eee;'></div>") ++
      tq "
        </td>
        <td style='padding:10px 0;border-top:1px solid #eee;vertical-align:top;'>
          <div style='color:#111;font-weight:600;'>
            " ++
      esc (title p) ++
      "
          </div>
          " ++
      (if truthy (price p)
       then tq "<div style='margin-top:4px;color:#666;font-size:12px;'>" ++
            esc (price p) ++ "</div>"
       else "") ++
      "
        </td>
      </tr>" ++ post.
Proof.
  destruct (join_middle "
" (map Card.row ps1) (map Card.row ps2)) as (a & b & Hab).
  eexists. eexists. intros p.
  unfold Card.buildHtml, Card.rows.
  rewrite nonzero_length_middle, length_app, map_app. cbn [List.length map].
  rewrite Hab. unfold Card.row at 1.
  trim_template. chain_lhs. unfold Card.img, Card.priceLine.
  find_pieces (trimStart (tq "
      <tr>
        <td style='padding:10px 0;border-top:1px solid #eee;vertical-align:top;width:68px;'>
          ")).
Qed.

Lemma Striped_row_in_output ct link ps1 ps2 :
  exists pre post, forall p,
    Striped.buildHtml ct (ps1 ++ p :: ps2)%list link
    = pre ++
      tq "<tr style='background:" ++
      (if Nat.even (List.length ps1) then "#f4ebe6" else "#d6b5a2") ++
      tq ";'>
        <td style='padding:12px 10px;vertical-align:top;width:84px;'>
          " ++
      (if truthy (imageUrl p)
       then tq "<img src='" ++ imageUrl p ++ tq "' alt='" ++ esc (imageAlt p) ++
            tq "' width='72' height='72'
              style='display:block;object-fit:cover;border:none;'>"
       else tq "<div style='width:72px;height:72px;background:#eee;'></div>") ++
      tq "
        </td>
        <td style='padding:12px 10px;vertical-align:top;'>
          <div style='color:#222829;font-weight:600;'>
            " ++
      esc (title p) ++
      "
          </div>
          " ++
      (if truthy (price p)
       then tq "<div style='margin-top:4px;color:#222829;font-size:13px;'>" ++
            esc (price p) ++ "</div>"
       else "") ++
      "
        </td>
      </tr>" ++ post.
Proof.
  destruct (join_middle "
" (Striped.rows_from 0 ps1)
      (Striped.rows_from (S (0 + List.length ps1)) ps2)) as (a & b & Hab).
  assert (E : Nat.eqb (Nat.modulo (List.length ps1) 2) 0
              = Nat.even (List.length ps1)).
  { destruct (Nat.even (List.length ps1)) eqn:Ev.
    - apply Nat.eqb_eq. apply Nat.even_spec in Ev. destruct Ev as [m ->].
      rewrite Nat.mul_comm. apply Nat.Div0.mod_mul.
    - apply Nat.eqb_neq. intros M.
      assert (Nat.even (List.length ps1) = true); [|congruence].
      apply Nat.even_spec. exists (List.length ps1 / 2)%nat.
      pose proof (Nat.div_mod_eq (List.length ps1) 2). lia. }
  eexists. eexists. intros p.
  unfold Striped.buildHtml, Striped.rows.
  rewrite nonzero_length_middle, rows_from_middle.
  rewrite Hab. unfold Striped.row at 1. cbv zeta. cbn [Nat.add]. rewrite E.
  trim_template. chain_lhs. unfold Striped.img, Striped.priceLine.
  find_pieces (trimStart (tq "
      <tr style='background:")).
Qed.

Lemma Basic_item_in_output ct ps1 ps2 :
  exists pre post, forall p,
    Basic.buildHtml ct (ps1 ++ p :: ps2)%list
    = pre ++
      tq "<li style='margin:0 0 8px 0;'><a href='" ++
      Basic.url p ++
      tq "' style='color:#111;text-decoration:none;'>" ++
      Basic.esc (Basic.title p) ++
      "</a></li>" ++ post.
Proof.
  destruct (join_middle "
" (map Basic.item ps1) (map Basic.item ps2)) as (a & b & Hab).
  eexists. eexists. intros p.
  unfold Basic.buildHtml. cbv zeta.
  rewrite Basic_items_truthy, nonzero_length_middle, length_app, map_app.
  cbn [List.length map].
  rewrite Hab. unfold Basic.item at 1.
  trim_template. chain_lhs.
  find_pieces (tq "<li style='margin:0 0 8px 0;'><a href='").
Qed.

(** C4, amended.  For the empty product sequence the card is the fixed
    frame around the escaped collection title, and the part after the title
    holds the count line "0 products" and a table body with the single
    "No products found." row.  The striped table is a fixed frame with the
    same single row in its table body, and with no count line: the only
    "products" in it is the one of the message. *)
Theorem empty_collection_card :
  exists head body striped : string,
    (forall ct link,
        Card.buildHtml ct [] link
        = tq "<a href='" ++ link ++ head ++ esc ct ++ body) /\
    count "<tr" head = 0%nat /\
    count "<tr" body = 1%nat /\
    contains (tq "<tbody>
          <tr>
      <td style='padding:10px 0;color:#666;'>No products found.</td>
    </tr>
        </tbody>") body = true /\
    contains
      (tq "<div style='color:#666;font-size:12px;margin-top:2px;'>0 products</div>")
      body = true /\
    (forall ct link,
        Striped.buildHtml ct [] link = tq "<a href='" ++ link ++ striped) /\
    count "<tr" striped = 1%nat /\
    contains (tq "<tbody>
          <tr>
      <td style='padding:12px;color:#222829;'>No products found.</td>
    </tr>
        </tbody>") striped = true /\
    count "products" striped = 1%nat /\
    contains "0 products" striped = false.
Proof.
  do 3 eexists.
  split.
  { intros ct link. unfold Card.buildHtml.
    cbn [List.length nonzero Nat.eqb negb].
    trim_template. chain_lhs. align. }
  do 4 (split; [vm_compute; reflexivity|]).
  split.
  { intros ct link. unfold Striped.buildHtml.
    cbn [List.length nonzero Nat.eqb negb].
    trim_template. chain_lhs. align. }
  vm_compute. repeat split.
Qed.

(** C4 as stated fails on the striped revision: for the empty sequence it
    writes the single row and no count line. *)
Lemma striped_empty_no_count_line :
  contains "0 products" (Striped.buildHtml "Week 46" [] "L") = false /\
  count "<tr" (Striped.buildHtml "Week 46" [] "L") = 1%nat /\
  contains "No products found." (Striped.buildHtml "Week 46" [] "L") = true.
Proof. vm_compute. repeat split. Qed.

(** C5, amended.  For a sequence of exactly one product the count line of
    the card reads "1 product" and closes there; the first script writes
    "(1 products)" after the title. *)
Theorem single_product_count_line :
  (exists head, forall ct p link, exists rest,
      Card.buildHtml ct [p] link
      = tq "<a href='" ++ link ++ head ++ esc ct ++
        tq "</div>
      <div style='color:#666;font-size:12px;margin-top:2px;'>1 product</div>" ++ rest) /\
  (exists head, forall ct p, exists rest,
      Basic.buildHtml ct [p]
      = head ++ Basic.esc ct ++ "</strong> (1 products)</p>" ++ rest).
Proof.
  split.
  - eexists. intros ct p link. eexists. unfold Card.buildHtml.
    cbn [List.length nonzero Nat.eqb negb].
    change (dec (N.of_nat 1)) with "1".
    trim_template. chain_lhs. align.
  - eexists. intros ct p. eexists. unfold Basic.buildHtml. cbv zeta.
    rewrite Basic_items_truthy.
    cbn [List.length nonzero Nat.eqb negb map].
    change (dec (N.of_nat 1)) with "1".
    trim_template. chain_lhs. align.
Qed.

(** C5 as stated fails on the first script: its count is followed by the
    plural noun for every number of products. *)
Lemma basic_single_product_plural :
  contains "(1 products)"
    (Basic.buildHtml "Week 46" [{| Basic.title := "Rose"; Basic.url := "u" |}])
  = true /\
  contains "1 product<"
    (Basic.buildHtml "Week 46" [{| Basic.title := "Rose"; Basic.url := "u" |}])
  = false.
Proof. vm_compute. repeat split. Qed.

(** Finds the first piece of the right-hand side's frame in the left-hand
    side, and after it the other pieces. *)
Ltac find_pieces_rhs :=
  match goal with |- _ = _ ++ ?x ++ _ => find_pieces x end.

(** C1, amended.  [esc] leaves no raw [<], [>] or double quote, and no [&]
    other than the one that opens an entity.  In the output of both table
    renderers the text of a product, wherever the product stands in the
    list, is fixed markup around the image URL as it is, the escaped alt
    text, the escaped title and the escaped price (the image and the price
    only when they are not empty); the card writes the escaped collection
    title, the striped table no title; the collection link is written as it
    is.  The first script writes a product's URL as it is and both titles
    through its own [esc], which leaves double quotes as they are.  The
    title [<b>"A&B"</b>] is written
    [&lt;b&gt;&quot;A&amp;B&quot;&lt;/b&gt;] by the two later scripts. *)
Theorem text_fields_escaped :
  (forall s, html_safe (esc s) = true) /\
  (exists a b c d e f g h : string,
     forall ct link ps1 ps2, exists pre post, forall p,
       Card.buildHtml ct (ps1 ++ p :: ps2)%list link
       = pre ++
         (if truthy (imageUrl p)
          then a ++ imageUrl p ++ b ++ esc (imageAlt p) ++ c
          else d) ++
         e ++ esc (title p) ++ f ++
         (if truthy (price p) then g ++ esc (price p) ++ h else "") ++
         post) /\
  (exists a b c d e f g h : string,
     forall ct link ps1 ps2, exists pre post, forall p,
       Striped.buildHtml ct (ps1 ++ p :: ps2)%list link
       = pre ++
         (if truthy (imageUrl p)
          then a ++ imageUrl p ++ b ++ esc (imageAlt p) ++ c
          else d) ++
         e ++ esc (title p) ++ f ++
         (if truthy (price p) then g ++ esc (price p) ++ h else "") ++
         post) /\
  (exists a : string, forall ps, exists b, forall ct link,
      Card.buildHtml ct ps link = tq "<a href='" ++ link ++ a ++ esc ct ++ b) /\
  (forall ps, exists b, forall ct link,
      Striped.buildHtml ct ps link = tq "<a href='" ++ link ++ b) /\
  (exists a b : string,
     forall ct ps1 ps2, exists pre post, forall p,
       Basic.buildHtml ct (ps1 ++ p :: ps2)%list
       = pre ++ Basic.url p ++ a ++ Basic.esc (Basic.title p) ++ b ++ post) /\
  (exists a : string, forall ps, exists b, forall ct,
      Basic.buildHtml ct ps = a ++ Basic.esc ct ++ b) /\
  esc (tq "<b>'A&B'</b>") = tq "&lt;b&gt;&quot;A&amp;B&quot;&lt;/b&gt;" /\
  Basic.esc (tq "<b>'A&B'</b>") = tq "&lt;b&gt;'A&amp;B'&lt;/b&gt;".
Proof.
  split; [exact html_safe_esc|].
  split.
  { do 8 eexists. intros ct link ps1 ps2.
    destruct (Card_row_in_output ct link ps1 ps2) as (pre0 & post0 & H).
    do 2 eexists. intros p. rewrite (H p). find_pieces_rhs. }
  split.
  { do 8 eexists. intros ct link ps1 ps2.
    destruct (Striped_row_in_output ct link ps1 ps2) as (pre0 & post0 & H).
    do 2 eexists. intros p. rewrite (H p). find_pieces_rhs. }
  split.
  { eexists. intros ps. eexists. intros ct link. unfold Card.buildHtml.
    trim_template. chain_lhs. align. }
  split.
  { intros ps. eexists. intros ct link. unfold Striped.buildHtml.
    trim_template. chain_lhs. align. }
  split.
  { do 2 eexists. intros ct ps1 ps2.
    destruct (Basic_item_in_output ct ps1 ps2) as (pre0 & post0 & H).
    do 2 eexists. intros p. rewrite (H p). find_pieces_rhs. }
  split; [|split; reflexivity].
  eexists. intros ps. eexists. intros ct. unfold Basic.buildHtml. cbv zeta.
  trim_template. chain_lhs. align.
Qed.

(** C1 as stated fails: the image URL is a remote-supplied string and is
    written into the [src] attribute as it is, so a double quote in it ends
    the attribute; and [esc] of the first script leaves double quotes as
    they are. *)
Lemma image_url_written_raw :
  let p := {| title := "Rose"; url := ""; price := "";
              imageUrl := tq "x'><i>"; imageAlt := "" |} in
  html_safe (imageUrl p) = false /\
  contains (tq "<img src='x'><i>' alt=''") (Card.buildHtml "Week 46" [p] "L") = true /\
  contains (tq "<img src='x'><i>' alt=''") (Striped.buildHtml "Week 46" [p] "L") = true /\
  Basic.esc (tq "<b>'A&B'</b>") = tq "&lt;b&gt;'A&amp;B'&lt;/b&gt;".
Proof. vm_compute. repeat split. Qed.

(** ** The price formatter *)



Lemma Striped_price_of_node shop node money :
  minVariantPrice node = Some money ->
  price (Striped.productRecord shop node)
  = Striped.formatMoney (amount money) (currencyCode money).
Proof. intros H. unfold Striped.productRecord. cbn. now rewrite H. Qed.

Lemma Card_price_of_node shop node money :
  minVariantPrice node = Some money ->
  price (Card.productRecord shop node)
  = Card.formatMoney (amount money) (currencyCode money).
Proof. intros H. unfold Card.productRecord. cbn. now rewrite H. Qed.





(** Finds in the left-hand side the pieces of the right-hand side that
    follow its first two, which are unknown. *)
Ltac find_after :=
  first [ apply frame_then; pieces | apply peel; find_after ].







(** ** The identifier resolver *)

(** C2, amended.  On every date outside the years 0..99 (and whose week's
    Thursday is outside them, with 1 January of the Thursday's year in the
    range of time values) the script returns the week the specification's
    algorithm gives, which is the ISO 8601 week number: the number of the
    Monday-to-Sunday week counted from the week that holds the first Thursday
    of the week-numbering year.  It maps 2024-12-31 to week 1 of 2025 and
    2024-01-01, a Monday, to week 1 of 2024. *)
Theorem isoWeekNumberUTC_iso8601 (t : Z) (H : week_defined t) :
  isoWeekNumberUTC t = Some (specWeek (Day t)) /\
  specWeek (Day t) = weekNumber (Day t) /\
  week1Monday (weekYear (Day t)) <= Day t < week1Monday (weekYear (Day t) + 1) /\
  1 <= weekNumber (Day t) <= 53 /\
  isoWeekNumberUTC (utc 2024 12 31) = Some 1 /\
  weekYear (Day (utc 2024 12 31)) = 2025 /\
  isoWeekNumberUTC (utc 2024 1 1) = Some 1 /\
  weekYear (Day (utc 2024 1 1)) = 2024 /\
  isoDayOfWeek (Day (utc 2024 1 1)) = 1.
Proof.
  split; [now apply isoWeekNumberUTC_specWeek|].
  split; [apply specWeek_weekNumber|].
  split; [apply weekYear_interval|].
  split; [apply weekNumber_range|].
  vm_compute. repeat split.
Qed.

Lemma isoWeekNumberUTC_iso8601_witness :
  week_defined (utc 2026 11 9) /\
  isoWeekNumberUTC (utc 2026 11 9) = Some 46.
Proof.
  assert (W : week_defined (utc 2026 11 9)).
  { unfold week_defined, in_time_range, legacy_year. vm_compute.
    repeat split; try discriminate; intros [A B]; apply B; reflexivity. }
  split; [exact W|].
  exact (proj1 (isoWeekNumberUTC_iso8601 (utc 2026 11 9) W)).
Defined.

(** C2 as stated fails.  31 December of the year 99 is a Thursday in week
    53; the script reads the year back as 1999 and answers 52.  For
    1 January of the year 100 it answers a negative number. *)
Lemma isoWeekNumberUTC_year_99 :
  in_time_range (utc 99 12 31) /\
  isoDayOfWeek (Day (utc 99 12 31)) = 4 /\
  weekNumber (Day (utc 99 12 31)) = 53 /\
  isoWeekNumberUTC (utc 99 12 31) = Some 52 /\
  isoWeekNumberUTC (utc 100 1 1) = Some (-99085).
Proof. unfold in_time_range. vm_compute. repeat split. discriminate. Qed.

(** C6, amended.  A non-empty first argument is the handle, verbatim,
    whatever it holds and whatever the clock reads: the computed default
    plays no part. *)
Theorem explicit_handle_verbatim (h : string) (now : Z) (H : h <> "") :
  handle (Some h) now = h.
Proof. unfold handle, or_else. now rewrite truthy_nonempty. Qed.

Lemma explicit_handle_verbatim_witness :
  handle (Some "not a slug / <b>") (utc 2026 11 2) = "not a slug / <b>".
Proof.
  apply (explicit_handle_verbatim "not a slug / <b>" (utc 2026 11 2)).
  discriminate.
Defined.

(** C6 as stated fails: the empty string, passed as the first argument, is
    not returned; the computed default is. *)
Lemma empty_handle_falls_back :
  handle (Some "") (utc 2026 11 2) = "week-46-plants" /\
  handle (Some "") (utc 2026 11 2) = handle None (utc 2026 11 2) /\
  ~ (forall h now, handle (Some h) now = h).
Proof.
  split; [vm_compute; reflexivity|]. split; [reflexivity|].
  intros H. specialize (H "" (utc 2026 11 2)). vm_compute in H. discriminate.
Qed.

(** ** The GraphQL client and the run *)

Lemma gql_delivers remote query variables log d :
  delivers (remote log {| req_query := query; req_variables := variables |}) d ->
  gql remote query variables log
  = (Ok d, (log ++ [{| req_query := query; req_variables := variables |}])%list).
Proof.
  intros (Hok & [(Hp & ->) | (json & Hp & He & Hd)]);
    unfold gql, bind, fetch; rewrite Hok, Hp; cbn [negb]; [reflexivity|].
  destruct He as [-> | ->]; now rewrite <- Hd.
Qed.

(** C7, amended.  The client throws "HTTP <status>: <body>" when the status
    is outside 200..299.  When it is inside: the client throws the
    serialised error list when the body parses to an object whose [errors]
    array is non-empty; returns the object's [data] when the body parses to
    an object whose [errors] is absent or empty; returns [undefined] when
    the body parses to a number, a string, a boolean or an array; throws a
    [TypeError] when the body is [null]; and throws the parser's error when
    the body does not parse. *)
Theorem gql_outcomes (remote : list Request -> Request -> Response)
    (query : string) (variables : Variables) (log : list Request) :
  let req := {| req_query := query; req_variables := variables |} in
  let res := remote log req in
  let log' := (log ++ [req])%list in
  (ok res = true <-> 200 <= status res <= 299) /\
  (ok res = false ->
   gql remote query variables log
   = (Throw (Error ("HTTP " ++ decZ (status res) ++ ": " ++ text res)), log')) /\
  (forall json e es,
      ok res = true -> parsed res = Some (JsonObject json) ->
      errors json = Some (e :: es) ->
      gql remote query variables log
      = (Throw (ErrorWith "GraphQL errors: " (GraphQLErrorList (e :: es))), log')) /\
  (forall json,
      ok res = true -> parsed res = Some (JsonObject json) ->
      errors json = None \/ errors json = Some [] ->
      gql remote query variables log = (Ok (data json), log')) /\
  (ok res = true -> parsed res = Some JsonOther ->
   gql remote query variables log = (Ok None, log')) /\
  (ok res = true -> parsed res = Some JsonNull ->
   gql remote query variables log = (Throw TypeError, log')) /\
  (ok res = true -> parsed res = None ->
   gql remote query variables log = (Throw (SyntaxError (text res)), log')).
Proof.
  cbv zeta.
  set (req := {| req_query := query; req_variables := variables |}).
  split; [|split; [|split; [|split; [|split; [|split]]]]].
  - unfold ok. rewrite andb_true_iff, !Z.leb_le. tauto.
  - intros Hok. unfold gql, bind, fetch. fold req. now rewrite Hok.
  - intros json e es Hok Hp He. unfold gql, bind, fetch. fold req.
    now rewrite Hok, Hp, He.
  - intros json Hok Hp He. unfold gql, bind, fetch. fold req.
    rewrite Hok, Hp. cbn [negb]. now destruct He as [-> | ->].
  - intros Hok Hp. unfold gql, bind, fetch. fold req. now rewrite Hok, Hp.
  - intros Hok Hp. unfold gql, bind, fetch. fold req. now rewrite Hok, Hp.
  - intros Hok Hp. unfold gql, bind, fetch. fold req. now rewrite Hok, Hp.
Qed.

Lemma gql_outcomes_witness :
  let failing := {| status := 200; text := "{...}";
                    parsed := Some (JsonObject {| errors := Some ["{oops}"];
                                                  data := None |}) |} in
  let refused := {| status := 401; text := "Unauthorized"; parsed := None |} in
  gql (constant_remote failing) shopQuery NoVariables []
  = (Throw (ErrorWith "GraphQL errors: " (GraphQLErrorList ["{oops}"])),
     [{| req_query := shopQuery; req_variables := NoVariables |}]) /\
  gql (constant_remote refused) shopQuery NoVariables []
  = (Throw (Error "HTTP 401: Unauthorized"),
     [{| req_query := shopQuery; req_variables := NoVariables |}]).
Proof.
  cbv zeta. split.
  - refine (proj1 (proj2 (proj2 (gql_outcomes (constant_remote _) shopQuery
                                   NoVariables []))) _ _ _ _ _ _); reflexivity.
  - refine (proj1 (proj2 (gql_outcomes (constant_remote _) shopQuery
                            NoVariables [])) _); reflexivity.
Defined.

(** C7 as stated fails: a 200 response whose body is not JSON neither
    carries an [errors] array nor yields [data], the client throws the
    parser's error; and for the body [null] it throws a [TypeError]. *)
Lemma gql_unparsable_body :
  let res := {| status := 200; text := "<html>Bad gateway</html>"; parsed := None |} in
  let null := {| status := 200; text := "null"; parsed := Some JsonNull |} in
  ok res = true /\
  gql (constant_remote res) shopQuery NoVariables []
  = (Throw (SyntaxError "<html>Bad gateway</html>"),
     [{| req_query := shopQuery; req_variables := NoVariables |}]) /\
  ~ (exists d, gql (constant_remote res) shopQuery NoVariables []
               = (Ok d, [{| req_query := shopQuery; req_variables := NoVariables |}])) /\
  ok null = true /\
  gql (constant_remote null) shopQuery NoVariables []
  = (Throw TypeError,
     [{| req_query := shopQuery; req_variables := NoVariables |}]).
Proof.
  cbv zeta. split; [reflexivity|]. split; [reflexivity|].
  split; [|split; reflexivity].
  intros (d & H). discriminate.
Qed.

Section Run.

Variable shop : string.
Variable remote : list Request -> Request -> Response.
Variable Product : Type.
Variable productsQuery : string.
Variable productRecord : string -> ProductNode -> Product.
Variable buildHtml : string -> list Product -> string -> string.

Let the_run := run shop remote Product productsQuery productRecord buildHtml.

(** C8.  When the lookup hands back no collection for the handle, the run
    ends with exit code 1 and the error "Collection not found: <handle>",
    having sent the lookup and nothing else: no metafield write. *)
Theorem collection_not_found (h : string) (d : option Data) :
  let lookup := {| req_query := collectionQuery; req_variables := HandleVars h |} in
  delivers (remote [] lookup) d ->
  (forall c, d <> Some (DataCollection (Some c))) ->
  the_run h
  = {| exitCode := 1;
       thrown := Some (Error ("Collection not found: " ++ h));
       requests := [lookup] |} /\
  existsb is_write (requests (the_run h)) = false.
Proof.
  cbv zeta. intros Hd Hc.
  assert (E : the_run h
              = {| exitCode := 1;
                   thrown := Some (Error ("Collection not found: " ++ h));
                   requests := [{| req_query := collectionQuery;
                                   req_variables := HandleVars h |}] |}).
  { unfold the_run, run, main, bind, getCollectionNumericId, bind.
    rewrite (gql_delivers _ _ _ _ _ Hd). cbn [app].
    destruct d as [[[c|]| | |]|]; try reflexivity.
    exfalso. now apply (Hc c). }
  split; [exact E|]. rewrite E. reflexivity.
Qed.

(** C9.  When the three reads succeed and the write's response, itself a
    success for the client, carries a non-empty [userErrors] list, the run
    ends with exit code 1 and an error that carries that list; when
    [userErrors] is empty or absent the run ends with exit code 0. *)
Theorem user_errors_fail_run (h : string) (c : Collection) (d2 : option Data)
    (shopId : option string) (ue : option (list UserError)) :
  let r1 := {| req_query := collectionQuery; req_variables := HandleVars h |} in
  let r2 := {| req_query := productsQuery;
               req_variables :=
                 ProductsVars 50 ("collection_id:" ++ last_segment (collection_id c)) |} in
  let products :=
    map (productRecord shop)
        (match d2 with Some (DataProducts (Some es)) => es | _ => [] end) in
  let html := buildHtml (collection_title c) products (collectionUrlFromHandle shop h) in
  let r3 := {| req_query := shopQuery; req_variables := NoVariables |} in
  let r4 := {| req_query := metafieldsSetMutation;
               req_variables :=
                 MetafieldsVars
                   [ {| ownerId := shopId; namespace := "email";
                        key := "collection_html_1";
                        type_ := "multi_line_text_field"; value := html |} ] |} in
  delivers (remote [] r1) (Some (DataCollection (Some c))) ->
  delivers (remote [r1] r2) d2 ->
  delivers (remote [r1; r2] r3)
           (Some (DataShop (Some {| shop_id := shopId |}))) ->
  delivers (remote [r1; r2; r3] r4)
           (Some (DataMetafieldsSet (Some {| userErrors := ue |}))) ->
  (forall e es,
      ue = Some (e :: es) ->
      the_run h
      = {| exitCode := 1;
           thrown := Some (ErrorWith "metafieldsSet userErrors: "
                                     (UserErrorList (e :: es)));
           requests := [r1; r2; r3; r4] |}) /\
  (ue = None \/ ue = Some [] ->
   the_run h = {| exitCode := 0; thrown := None; requests := [r1; r2; r3; r4] |}) /\
  (exitCode (the_run h) = 0 <-> ue = None \/ ue = Some []).
Proof.
  cbv zeta. intros H1 H2 H3 H4.
  unfold the_run, run, main, bind, getCollectionNumericId,
    getProductsInCollection, writeShopMetafield, bind, ret.
  rewrite (gql_delivers _ _ _ _ _ H1). cbn [app fst snd].
  rewrite (gql_delivers _ _ _ _ _ H2). cbn [app].
  rewrite (gql_delivers _ _ _ _ _ H3). cbn [app]. cbv zeta. cbn [shop_id].
  rewrite (gql_delivers _ _ _ _ _ H4). cbn [app userErrors].
  destruct ue as [[|e es]|]; cbn [exitCode].
  - split; [discriminate|]. split; [reflexivity|]. split; auto.
  - split; [intros e' es' E; now inversion E|].
    split; [intros [E|E]; discriminate|].
    split; [discriminate | intros [E|E]; discriminate].
  - split; [discriminate|]. split; [reflexivity|]. split; auto.
Qed.

End Run.

Lemma collection_not_found_witness :
  let remote :=
    constant_remote
      {| status := 200; text := "{}";
         parsed := Some (JsonObject {| errors := None;
                                       data := Some (DataCollection None) |}) |} in
  run_card "flwr-farm" remote "week-99-plants"
  = {| exitCode := 1;
       thrown := Some (Error "Collection not found: week-99-plants");
       requests := [{| req_query := collectionQuery;
                       req_variables := HandleVars "week-99-plants" |}] |}.
Proof.
  cbv zeta.
  refine (proj1 (collection_not_found "flwr-farm" (constant_remote _)
                   ProductRecord fullProductsQuery Card.productRecord
                   Card.buildHtml "week-99-plants"
                   (Some (DataCollection None)) _ _)).
  - split; [reflexivity|]. right. eexists.
    split; [reflexivity|]. split; [now left | reflexivity].
  - discriminate.
Defined.

Lemma user_errors_fail_run_witness :
  let ue := [{| field := Some ["metafields"; "0"; "value"];
                message := "Value is too long" |}] in
  exitCode (run_card "flwr-farm" (example_remote (Some ue)) "week-46-plants") = 1 /\
  thrown (run_card "flwr-farm" (example_remote (Some ue)) "week-46-plants")
  = Some (ErrorWith "metafieldsSet userErrors: " (UserErrorList ue)).
Proof.
  cbv zeta.
  pose proof
    (user_errors_fail_run "flwr-farm"
       (example_remote
          (Some [{| field := Some ["metafields"; "0"; "value"];
                    message := "Value is too long" |}]))
       ProductRecord fullProductsQuery Card.productRecord Card.buildHtml
       "week-46-plants"
       {| collection_id := "gid://shopify/Collection/42";
          collection_title := "Week 46" |}
       (Some (DataProducts
                (Some [ {| node_title := Some "Rose"; node_handle := "rose";
                           onlineStoreUrl := None; featuredImage := None;
                           minVariantPrice :=
                             Some {| amount := "12.5"; currencyCode := "USD" |} |} ])))
       (Some "gid://shopify/Shop/1")
       (Some [{| field := Some ["metafields"; "0"; "value"];
                 message := "Value is too long" |}])) as T.
  cbv zeta in T.
  assert (D : forall res d,
             res = {| status := 200; text := "{}";
                      parsed := Some (JsonObject {| errors := None;
                                                    data := Some d |}) |} ->
             delivers res (Some d)).
  { intros res d ->. split; [reflexivity|]. right. eexists.
    split; [reflexivity|]. split; [now left | reflexivity]. }
  destruct T as (T & _); try (apply D; reflexivity).
  unfold run_card. rewrite (T _ _ eq_refl). split; reflexivity.
Defined.

(** * Further properties *)

(** ** The week number and the default handle *)

(** X1.  [isoWeekNumberUTC] looks at the UTC day only: two instants of one
    UTC day get the same answer, whatever the time of day. *)
Theorem isoWeekNumberUTC_ignores_time_of_day (t t' : Z) (H : Day t = Day t') :
  isoWeekNumberUTC t = isoWeekNumberUTC t'.
Proof.
  unfold isoWeekNumberUTC, getUTCFullYear, getUTCMonth, getUTCDate.
  assert (Y : YearFromTime t = YearFromTime t')
    by (unfold YearFromTime; now rewrite H).
  assert (W : DayWithinYear t = DayWithinYear t')
    by (unfold DayWithinYear; now rewrite H, Y).
  assert (L : InLeapYear t = InLeapYear t')
    by (unfold InLeapYear; now rewrite Y).
  assert (M : MonthFromTime t = MonthFromTime t')
    by (unfold MonthFromTime; now rewrite W, L).
  assert (D : DateFromTime t = DateFromTime t')
    by (unfold DateFromTime; now rewrite W, L, M).
  now rewrite Y, M, D.
Qed.

Lemma isoWeekNumberUTC_ignores_time_of_day_witness :
  isoWeekNumberUTC (utc 2026 11 2 + 43200000) = isoWeekNumberUTC (utc 2026 11 2).
Proof.
  apply (isoWeekNumberUTC_ignores_time_of_day (utc 2026 11 2 + 43200000)
                                              (utc 2026 11 2)).
  vm_compute. reflexivity.
Defined.

Lemma Date_UTC_own_day (t : Z) :
  in_time_range t -> ~ legacy_year (YearFromTime t) ->
  Date_UTC (getUTCFullYear t) (getUTCMonth t) (getUTCDate t)
  = Some (Day t * msPerDay).
Proof.
  intros R L.
  unfold Date_UTC, getUTCFullYear, getUTCMonth, getUTCDate.
  rewrite (MakeFullYear_id _ L), MakeDay_roundtrip.
  replace (Day t - DateFromTime t + DateFromTime t) with (Day t) by lia.
  unfold MakeDate. rewrite Z.add_0_r.
  apply TimeClip_in_range.
  unfold in_time_range, Day, msPerDay in *. zlia.
Qed.

(** X2.  Outside the years 0..99 the first statement of [isoWeekNumberUTC]
    yields midnight UTC of the date's own day. *)
Theorem date_rebuilt_at_midnight (t : Z)
    (R : in_time_range t) (L : ~ legacy_year (YearFromTime t)) :
  exists d,
    Date_UTC (getUTCFullYear t) (getUTCMonth t) (getUTCDate t) = Some d /\
    d = Day t * msPerDay /\
    d <= t < d + msPerDay /\
    TimeWithinDay d = 0.
Proof.
  exists (Day t * msPerDay).
  split; [now apply Date_UTC_own_day|].
  split; [reflexivity|]. unfold TimeWithinDay, Day, msPerDay. split; zlia.
Qed.

Lemma date_rebuilt_at_midnight_witness :
  exists d,
    Date_UTC (getUTCFullYear (utc 2026 11 2 + 43200000))
             (getUTCMonth (utc 2026 11 2 + 43200000))
             (getUTCDate (utc 2026 11 2 + 43200000)) = Some d /\
    d = utc 2026 11 2.
Proof.
  destruct (date_rebuilt_at_midnight (utc 2026 11 2 + 43200000)) as (d & A & B & _).
  - unfold in_time_range. vm_compute. discriminate.
  - unfold legacy_year. vm_compute. intros [_ C]. apply C. reflexivity.
  - exists d. split; [exact A|]. rewrite B. reflexivity.
Defined.

(** X3.  All days of one Monday-to-Sunday week get the same week number. *)
Theorem isoWeekNumberUTC_constant_on_week (t t' : Z)
    (H : week_defined t) (H' : week_defined t')
    (W : thursday (Day t) = thursday (Day t')) :
  isoWeekNumberUTC t = isoWeekNumberUTC t'.
Proof.
  rewrite (isoWeekNumberUTC_specWeek _ H), (isoWeekNumberUTC_specWeek _ H').
  unfold specWeek. now rewrite W.
Qed.

Ltac week_defined_tac :=
  unfold week_defined, in_time_range, legacy_year; vm_compute;
  repeat split; try discriminate; intros [_ C]; apply C; reflexivity.

Lemma isoWeekNumberUTC_constant_on_week_witness :
  isoWeekNumberUTC (utc 2026 11 2) = isoWeekNumberUTC (utc 2026 11 8) /\
  isoDayOfWeek (Day (utc 2026 11 2)) = 1 /\
  isoDayOfWeek (Day (utc 2026 11 8)) = 7.
Proof.
  split; [|split; reflexivity].
  apply (isoWeekNumberUTC_constant_on_week (utc 2026 11 2) (utc 2026 11 8)).
  - week_defined_tac.
  - week_defined_tac.
  - vm_compute. reflexivity.
Defined.

Lemma Day_plus_week t : Day (t + 7 * 86400000) = Day t + 7.
Proof. unfold Day, msPerDay. zlia. Qed.

Lemma specWeek_next d :
  specWeek (d + 7) = specWeek d + 1 \/
  (specWeek (d + 7) = 1 /\ 52 <= specWeek d <= 53).
Proof.
  unfold specWeek. cbv zeta. rewrite !thursday_eq.
  replace ((d + 7 + 3) / 7) with ((d + 3) / 7 + 1) by zlia.
  set (k := (d + 3) / 7).
  replace (7 * (k + 1)) with (7 * k + 7) by lia.
  pose proof (YearFromDay_spec (7 * k)) as S0.
  pose proof (YearFromDay_spec (7 * k + 7)) as S1.
  set (y := YearFromDay (7 * k)) in *. set (y' := YearFromDay (7 * k + 7)) in *.
  pose proof (DayFromYear_succ y) as E0. pose proof (DaysInYear_cases y) as C0.
  pose proof (DayFromYear_succ (y + 1)) as E1.
  pose proof (DaysInYear_cases (y + 1)) as C1.
  assert (Hy : y' = y \/ y' = y + 1).
  { destruct (Z.lt_trichotomy y' y) as [L|[E|G]]; auto.
    - apply DayFromYear_smono in L. lia.
    - destruct (Z.lt_trichotomy y' (y + 1)) as [L'|[E'|G']]; auto; [lia|].
      apply DayFromYear_smono in G'. lia. }
  destruct Hy as [E|E]; rewrite E in *.
  - left. zlia.
  - right. zlia.
Qed.

(** X4.  For a date on which the week number is defined, and is so seven
    days later too, the number lies between 1 and 53, and one week later it
    is one more, or is 1 again after week 52 or 53. *)
Theorem isoWeekNumberUTC_next_week (t : Z)
    (H : week_defined t) (H' : week_defined (t + 7 * 86400000)) :
  exists w,
    isoWeekNumberUTC t = Some w /\ 1 <= w <= 53 /\
    (isoWeekNumberUTC (t + 7 * 86400000) = Some (w + 1) \/
     (isoWeekNumberUTC (t + 7 * 86400000) = Some 1 /\ 52 <= w)).
Proof.
  exists (specWeek (Day t)).
  rewrite (isoWeekNumberUTC_specWeek _ H), (isoWeekNumberUTC_specWeek _ H').
  rewrite Day_plus_week.
  split; [reflexivity|].
  split; [rewrite specWeek_weekNumber; apply weekNumber_range|].
  destruct (specWeek_next (Day t)) as [E|[E B]]; rewrite E; [now left|].
  right. split; [reflexivity | lia].
Qed.

Lemma isoWeekNumberUTC_next_week_witness :
  exists w,
    isoWeekNumberUTC (utc 2026 12 28) = Some w /\ 1 <= w <= 53 /\
    (isoWeekNumberUTC (utc 2026 12 28 + 7 * 86400000) = Some (w + 1) \/
     (isoWeekNumberUTC (utc 2026 12 28 + 7 * 86400000) = Some 1 /\ 52 <= w)).
Proof.
  apply (isoWeekNumberUTC_next_week (utc 2026 12 28)); week_defined_tac.
Defined.

Lemma nextWeekHandleUTC_weekNumber (now : Z) (suffix : string) :
  week_defined (now + 7 * 86400000) ->
  nextWeekHandleUTC now suffix
  = "week-" ++ decZ (weekNumber (Day now + 7)) ++ "-" ++ suffix.
Proof.
  intros H. unfold nextWeekHandleUTC.
  rewrite TimeClip_in_range by apply H.
  rewrite (isoWeekNumberUTC_specWeek _ H), Day_plus_week, specWeek_weekNumber.
  reflexivity.
Qed.

(** X5.  Started without an argument (or with an empty one) when the week
    number is defined seven days after the clock's time, the script resolves
    to "week-<N>-plants", [N] being the ISO 8601 week number, 1..53, of the
    day seven days after the clock's. *)
Theorem default_handle_next_week (argv2 : option string) (now : Z)
    (A : argv2 = None \/ argv2 = Some "")
    (H : week_defined (now + 7 * 86400000)) :
  handle argv2 now
  = "week-" ++ decZ (weekNumber (Day now + 7)) ++ "-plants" /\
  1 <= weekNumber (Day now + 7) <= 53.
Proof.
  split; [|apply weekNumber_range].
  pose proof (nextWeekHandleUTC_weekNumber now "plants" H) as E.
  destruct A as [-> | ->]; exact E.
Qed.

Lemma default_handle_next_week_witness :
  handle None (utc 2026 12 28) = "week-1-plants".
Proof.
  refine (proj1 (default_handle_next_week None (utc 2026 12 28) (or_introl eq_refl) _)).
  week_defined_tac.
Defined.

Lemma DateFromTime_range t : 1 <= DateFromTime t <= 31.
Proof.
  pose proof (DayWithinYear_bounds t) as B.
  unfold DateFromTime, MonthFromTime, DaysInYear, InLeapYear in *. cbv zeta.
  destruct (isLeap (YearFromTime t)); split_ifs; lia.
Qed.

Lemma monthStart_bounds y m :
  0 <= m <= 11 -> DayFromYear y <= monthStart y m <= DayFromYear y + 335.
Proof.
  intros H. unfold monthStart. cbv zeta.
  assert (m = 0 \/ m = 1 \/ m = 2 \/ m = 3 \/ m = 4 \/ m = 5 \/ m = 6 \/ m = 7
          \/ m = 8 \/ m = 9 \/ m = 10 \/ m = 11) as C by lia.
  destruct (isLeap y);
    repeat (destruct C as [->|C]; [cbv iota; lia|]); subst; cbv iota; lia.
Qed.

(** X7.  For a date in the years 0..99 the function answers for the same
    month and day 1900 years later: [Date.UTC] reads the year as 19xx. *)
Theorem isoWeekNumberUTC_legacy_year (t : Z)
    (L : legacy_year (YearFromTime t)) :
  isoWeekNumberUTC t
  = isoWeekNumberUTC
      (MakeDate (MakeDay (1900 + YearFromTime t) (MonthFromTime t)
                         (DateFromTime t)) 0).
Proof.
  set (t2 := MakeDate (MakeDay (1900 + YearFromTime t) (MonthFromTime t)
                               (DateFromTime t)) 0).
  pose proof (MonthFromTime_range t) as RM.
  pose proof (DateFromTime_range t) as RD.
  assert (D2 : Day t2 = monthStart (1900 + YearFromTime t) (MonthFromTime t)
                        + DateFromTime t - 1).
  { unfold t2. rewrite Day_MakeDate. unfold MakeDay.
    now rewrite Z.div_small, Z.mod_small, Z.add_0_r by lia. }
  pose proof (monthStart_bounds (1900 + YearFromTime t) (MonthFromTime t) RM) as MB.
  assert (Y0 : DayFromYear 1900 <= DayFromYear (1900 + YearFromTime t)
               <= DayFromYear 1999).
  { unfold legacy_year in L. unfold DayFromYear. zlia. }
  assert (B2 : DayFromYear 1900 <= Day t2 <= DayFromYear 1999 + 366) by lia.
  assert (T2 : t2 = Day t2 * msPerDay)
    by (unfold t2; rewrite Day_MakeDate; unfold MakeDate; lia).
  assert (R2 : in_time_range t2).
  { unfold in_time_range. rewrite T2.
    change (DayFromYear 1900) with (-25567) in B2.
    change (DayFromYear 1999) with 10592 in B2. unfold msPerDay. lia. }
  assert (NL : ~ legacy_year (YearFromTime t2)).
  { unfold legacy_year, YearFromTime. intros [_ C].
    pose proof (YearFromDay_spec (Day t2)) as S.
    assert (Lt : YearFromDay (Day t2) < 1900) by lia.
    apply DayFromYear_smono in Lt. lia. }
  pose proof (Date_UTC_own_day t2 R2 NL) as E.
  rewrite <- T2 in E.
  assert (F : MakeFullYear (YearFromTime t) = 1900 + YearFromTime t).
  { unfold MakeFullYear, legacy_year in *.
    destruct (Z.leb_spec 0 (YearFromTime t)), (Z.leb_spec (YearFromTime t) 99);
      cbn [andb]; lia. }
  assert (E1 : Date_UTC (getUTCFullYear t) (getUTCMonth t) (getUTCDate t)
               = Some t2).
  { unfold Date_UTC, getUTCFullYear, getUTCMonth, getUTCDate.
    rewrite F. fold t2. now apply TimeClip_in_range. }
  unfold isoWeekNumberUTC. rewrite E1, E. reflexivity.
Qed.

Lemma isoWeekNumberUTC_legacy_year_witness :
  isoWeekNumberUTC (utc 99 12 31) = isoWeekNumberUTC (utc 1999 12 31).
Proof.
  assert (L : legacy_year (YearFromTime (utc 99 12 31))).
  { unfold legacy_year. vm_compute. split; discriminate. }
  rewrite (isoWeekNumberUTC_legacy_year (utc 99 12 31) L).
  vm_compute. reflexivity.
Defined.

(** ** Escaping *)

Lemma esc1_nonempty c : esc1 c <> "".
Proof.
  unfold esc1.
  repeat match goal with |- context [if ?b then _ else _] => destruct b end;
    discriminate.
Qed.

Lemma length_esc1 c : (1 <= String.length (esc1 c))%nat.
Proof.
  unfold esc1.
  repeat match goal with |- context [if ?b then _ else _] => destruct b end;
    cbn; lia.
Qed.

Lemma length_esc s : (String.length s <= String.length (esc s))%nat.
Proof.
  induction s as [|c s IH]; [apply Nat.le_refl|].
  rewrite esc_cons, length_append. pose proof (length_esc1 c). cbn. lia.
Qed.

Lemma esc1_cancel c c' x y :
  esc1 c ++ x = esc1 c' ++ y -> c = c' /\ x = y.
Proof.
  unfold esc1.
  destruct (Ascii.eqb_spec c "&") as [->|A];
  [|destruct (Ascii.eqb_spec c "<") as [->|B];
    [|destruct (Ascii.eqb_spec c ">") as [->|C];
      [|destruct (Ascii.eqb_spec c "034") as [->|D]]]];
  (destruct (Ascii.eqb_spec c' "&") as [->|A'];
   [|destruct (Ascii.eqb_spec c' "<") as [->|B'];
     [|destruct (Ascii.eqb_spec c' ">") as [->|C'];
       [|destruct (Ascii.eqb_spec c' "034") as [->|D']]]]);
  cbn; intros E; try discriminate E;
  try (injection E as E1 E2; subst; try congruence; now split);
  try (injection E as E2; now split).
Qed.

(** X8.  [esc] loses nothing: different texts have different escaped
    texts. *)
Theorem esc_injective (s t : string) (H : esc s = esc t) : s = t.
Proof.
  revert t H. induction s as [|c s IH]; intros [|c' t] H.
  - reflexivity.
  - rewrite esc_cons in H. cbn in H. exfalso.
    destruct (esc1 c') eqn:E; [now apply (esc1_nonempty c')|discriminate].
  - rewrite esc_cons in H. cbn in H. exfalso.
    destruct (esc1 c) eqn:E; [now apply (esc1_nonempty c)|discriminate].
  - rewrite !esc_cons in H. apply esc1_cancel in H as [-> H].
    f_equal. now apply IH.
Qed.

Lemma esc_injective_witness :
  tq "<b>'A&B'</b>" = tq "<b>'A&B'</b>".
Proof.
  apply (esc_injective (tq "<b>'A&B'</b>") (tq "<b>'A&B'</b>")). reflexivity.
Defined.

(** X9.  [esc] returns its argument unchanged exactly when the argument
    holds none of [&], [<], [>] and the double quote. *)
Theorem esc_fixes_plain_text (s : string) :
  esc s = s <-> no_special s = true.
Proof.
  induction s as [|c s IH]; [cbn; tauto|].
  rewrite esc_cons. cbn [no_special]. unfold esc1.
  destruct (Ascii.eqb_spec c "&") as [->|A];
  [|destruct (Ascii.eqb_spec c "<") as [->|B];
    [|destruct (Ascii.eqb_spec c ">") as [->|C];
      [|destruct (Ascii.eqb_spec c "034") as [->|D]]]];
  cbn [orb negb andb append].
  5: { split.
       - intros E. injection E as E. now apply IH.
       - intros E. f_equal. now apply IH. }
  all: split; [|discriminate]; intros E; exfalso;
    first [ discriminate E
          | injection E as E; apply (f_equal String.length) in E;
            pose proof (length_esc s) as L; cbn in E; lia ].
Qed.

(** The first script's [esc], byte by byte. *)
Lemma Basic_esc_cons c s :
  Basic.esc (String c s)
  = (if Ascii.eqb c "&" then "&amp;"
     else if Ascii.eqb c "<" then "&lt;"
     else if Ascii.eqb c ">" then "&gt;"
     else String c "") ++ Basic.esc s.
Proof.
  unfold Basic.esc. cbn [replaceAll].
  destruct (Ascii.eqb_spec c "&") as [->|Hamp].
  { rewrite !replaceAll_append. reflexivity. }
  destruct (Ascii.eqb_spec c "<") as [->|Hlt].
  { rewrite !replaceAll_append. reflexivity. }
  destruct (Ascii.eqb_spec c ">") as [->|Hgt].
  { rewrite !replaceAll_append. reflexivity. }
  rewrite !replaceAll_append. cbn [replaceAll append].
  apply Ascii.eqb_neq in Hlt, Hgt. rewrite Hlt. cbn [replaceAll append].
  now rewrite Hgt.
Qed.

(** X10.  The first script's [esc] leaves no raw [<] or [>] and no [&] other
    than the one that opens [&amp;], [&lt;] or [&gt;]; it passes every double
    quote through. *)
Theorem Basic_esc_safe_except_quotes (s : string) :
  basic_safe (Basic.esc s) = true /\
  occurrences "034" (Basic.esc s) = occurrences "034" s.
Proof.
  induction s as [|c s [IH1 IH2]]; [split; reflexivity|].
  rewrite Basic_esc_cons.
  destruct (Ascii.eqb_spec c "&") as [->|Hamp];
    [cbn; rewrite prefix_nil; auto|].
  destruct (Ascii.eqb_spec c "<") as [->|Hlt];
    [cbn; rewrite prefix_nil; auto|].
  destruct (Ascii.eqb_spec c ">") as [->|Hgt];
    [cbn; rewrite prefix_nil; auto|].
  cbn [append basic_safe occurrences].
  apply Ascii.eqb_neq in Hamp, Hlt, Hgt. rewrite Hamp, Hlt, Hgt.
  cbn [orb]. split; [exact IH1 | now rewrite IH2].
Qed.

(** ** The numeric identifier of a collection *)

Lemma last_segment_from_no_slash acc s :
  no_slash s = true -> last_segment_from acc s = acc.
Proof.
  revert acc. induction s as [|c s IH]; intros acc H; [reflexivity|].
  cbn in H |- *. apply andb_true_iff in H as [Hc Hs].
  apply negb_true_iff in Hc. rewrite Hc. now apply IH.
Qed.

Lemma last_segment_from_append acc p n :
  no_slash n = true -> last_segment_from acc (p ++ String "/" n) = n.
Proof.
  intros Hn. revert acc. induction p as [|c p IH]; intros acc; cbn.
  - now apply last_segment_from_no_slash.
  - destruct (Ascii.eqb c "/"); apply IH.
Qed.

Lemma split_last_slash s :
  no_slash s = true \/
  exists p n, s = p ++ String "/" n /\ no_slash n = true.
Proof.
  induction s as [|c s [IH|(p & n & -> & Hn)]].
  - now left.
  - cbn. destruct (Ascii.eqb_spec c "/") as [->|Hc].
    + right. exists "", s. now split.
    + left. exact IH.
  - right. exists (String c p), n. now split.
Qed.

(** X11.  The numeric identifier taken from a collection's [id] is what
    follows the last slash: it holds no slash, it ends the [id], and an [id]
    without a slash is taken whole. *)
Theorem last_segment_spec (s : string) :
  no_slash (last_segment s) = true /\
  (exists p, s = p ++ last_segment s /\
             (p = "" \/ exists q, p = q ++ "/")) /\
  (no_slash s = true -> last_segment s = s) /\
  (forall p n, s = p ++ "/" ++ n -> no_slash n = true -> last_segment s = n).
Proof.
  assert (A : forall p n, s = p ++ "/" ++ n -> no_slash n = true ->
                          last_segment s = n).
  { intros p n -> Hn. unfold last_segment. now apply last_segment_from_append. }
  assert (B : no_slash s = true -> last_segment s = s).
  { intros H. unfold last_segment. now apply last_segment_from_no_slash. }
  split; [|split; [|split; [exact B | exact A]]].
  - destruct (split_last_slash s) as [H|(p & n & E & Hn)].
    + now rewrite (B H).
    + now rewrite (A p n E Hn).
  - destruct (split_last_slash s) as [H|(p & n & E & Hn)].
    + exists "". rewrite (B H). auto.
    + exists (p ++ "/"). rewrite (A p n E Hn). split.
      * rewrite E. now rewrite append_assoc.
      * right. now exists p.
Qed.

Lemma last_segment_spec_witness :
  last_segment "gid://shopify/Collection/4242" = "4242".
Proof.
  refine (proj2 (proj2 (proj2 (last_segment_spec "gid://shopify/Collection/4242")))
            "gid://shopify/Collection" "4242" eq_refl eq_refl).
Defined.

(** ** Prices *)

Lemma append_nonempty_r a b : b <> "" -> a ++ b <> "".
Proof. intros H. destruct a; cbn; [assumption | discriminate]. Qed.

Lemma toString_ge_1e21_nonempty m e : toString_ge_1e21 m e <> "".
Proof.
  unfold toString_ge_1e21. cbv zeta.
  match goal with |- context [match ?x with _ => _ end] => destruct x as [|c0 [|c1 r]] end;
    cbn; discriminate.
Qed.

Lemma toFixed_nonempty x : isFinite x = true -> toFixed x 2 <> "".
Proof.
  destruct x as [s| | |s m e]; try discriminate; intros _.
  cbn [toFixed]. apply append_nonempty_r.
  destruct (ge_1e21 m e); [apply toString_ge_1e21_nonempty|].
  destruct (fixed_digits_2 (Z.to_N (nearest_scaled m e 2)))
    as (int & frac & E & H1 & _).
  rewrite E. destruct int; [contradiction | discriminate].
Qed.

(** X12.  In the card revision the formatter returns the currency code, a
    space and the amount with exactly two decimals when the amount reads as a
    finite number below 10^21, and the empty string when it does not read as
    a finite number. *)
Theorem Card_formatMoney_two_decimals (amountStr currencyCode : string) :
  let n := Number amountStr in
  (isFinite n = true -> below_1e21 n = true ->
   exists body,
     Card.formatMoney amountStr currencyCode = currencyCode ++ " " ++ body /\
     two_decimals n body) /\
  (isFinite n = false -> Card.formatMoney amountStr currencyCode = "").
Proof.
  cbv zeta. split.
  - intros F B. unfold Card.formatMoney. rewrite F. cbn [negb].
    eexists. split; [reflexivity|]. now apply toFixed_two_decimals.
  - intros F. unfold Card.formatMoney. now rewrite F.
Qed.

Lemma Card_formatMoney_two_decimals_witness :
  exists body,
    Card.formatMoney "19.999" "HUF" = "HUF" ++ " " ++ body /\
    two_decimals (Number "19.999") body.
Proof.
  apply (proj1 (Card_formatMoney_two_decimals "19.999" "HUF"));
    vm_compute; reflexivity.
Defined.

Lemma Striped_price_truthy shop node :
  truthy (price (Striped.productRecord shop node))
  = match minVariantPrice node with
    | Some money => isFinite (Number (amount money))
    | None => false
    end.
Proof.
  unfold Striped.productRecord. cbn [price].
  destruct (minVariantPrice node) as [money|]; [|reflexivity].
  unfold Striped.formatMoney.
  destruct (isFinite (Number (amount money))) eqn:F; [|reflexivity].
  cbn [negb]. apply truthy_nonempty, append_nonempty_r.
  now apply toFixed_nonempty.
Qed.

Lemma Card_price_truthy shop node :
  truthy (price (Card.productRecord shop node))
  = match minVariantPrice node with
    | Some money => isFinite (Number (amount money))
    | None => false
    end.
Proof.
  unfold Card.productRecord. cbn [price].
  destruct (minVariantPrice node) as [money|]; [|reflexivity].
  unfold Card.formatMoney.
  destruct (isFinite (Number (amount money))) eqn:F; [|reflexivity].
  cbn [negb]. apply truthy_nonempty, append_nonempty_r, append_nonempty_r.
  now apply toFixed_nonempty.
Qed.

(** X13.  In the output of both table renderers the title of a product is
    followed by a price line, holding the escaped price, exactly when the
    product has a minimum variant price whose amount reads as a finite
    number; otherwise the title is followed by the end of its cell. *)
Theorem price_line_iff_finite :
  (forall ct link ps1 ps2, exists pre post, forall shop node,
     let r := Striped.productRecord shop node in
     let finite :=
       match minVariantPrice node with
       | Some money => isFinite (Number (amount money))
       | None => false
       end in
     exists img,
       Striped.buildHtml ct (ps1 ++ r :: ps2)%list link
       = pre ++ img ++
         tq "
        </td>
        <td style='padding:12px 10px;vertical-align:top;'>
          <div style='color:#222829;font-weight:600;'>
            " ++
         esc (or_else (node_title node) "") ++
         "
          </div>
          " ++
         (if finite
          then tq "<div style='margin-top:4px;color:#222829;font-size:13px;'>" ++
               esc (price r) ++ "</div>"
          else "") ++
         "
        </td>
      </tr>" ++ post) /\
  (forall ct link ps1 ps2, exists pre post, forall shop node,
     let r := Card.productRecord shop node in
     let finite :=
       match minVariantPrice node with
       | Some money => isFinite (Number (amount money))
       | None => false
       end in
     exists img,
       Card.buildHtml ct (ps1 ++ r :: ps2)%list link
       = pre ++ img ++
         tq "
        </td>
        <td style='padding:10px 0;border-top:1px solid #eee;vertical-align:top;'>
          <div style='color:#111;font-weight:600;'>
            " ++
         esc (or_else (node_title node) "") ++
         "
          </div>
          " ++
         (if finite
          then tq "<div style='margin-top:4px;color:#666;font-size:12px;'>" ++
               esc (price r) ++ "</div>"
          else "") ++
         "
        </td>
      </tr>" ++ post) /\
  (forall shop node money,
     minVariantPrice node = Some money ->
     price (Striped.productRecord shop node)
     = Striped.formatMoney (amount money) (currencyCode money) /\
     price (Card.productRecord shop node)
     = Card.formatMoney (amount money) (currencyCode money)).
Proof.
  split; [|split].
  - intros ct link ps1 ps2.
    destruct (Striped_row_in_output ct link ps1 ps2) as (pre0 & post0 & H).
    do 2 eexists. intros shop node. cbv zeta. eexists. rewrite (H _).
    rewrite Striped_price_truthy. find_after.
  - intros ct link ps1 ps2.
    destruct (Card_row_in_output ct link ps1 ps2) as (pre0 & post0 & H).
    do 2 eexists. intros shop node. cbv zeta. eexists. rewrite (H _).
    rewrite Card_price_truthy. find_after.
  - intros shop node money H. split.
    + now apply Striped_price_of_node.
    + now apply Card_price_of_node.
Qed.

Lemma price_line_iff_finite_witness :
  price (Striped.productRecord "flwr-farm"
           {| node_title := Some "Rose"; node_handle := "rose";
              onlineStoreUrl := None; featuredImage := None;
              minVariantPrice :=
                Some {| amount := "12.5"; currencyCode := "USD" |} |})
  = "$12.50".
Proof.
  rewrite (proj1 (proj2 (proj2 price_line_iff_finite) "flwr-farm"
             {| node_title := Some "Rose"; node_handle := "rose";
                onlineStoreUrl := None; featuredImage := None;
                minVariantPrice :=
                  Some {| amount := "12.5"; currencyCode := "USD" |} |}
             {| amount := "12.5"; currencyCode := "USD" |} eq_refl)).
  vm_compute. reflexivity.
Defined.

(** ** The renderers, for every list *)

(** X14.  The first script writes, after the escaped collection title, the
    count as "(<n> products)" for every [n], 1 included, and then the list:
    one item per product in order, or the single item "No products found."
    exactly when there is no product. *)
Theorem Basic_buildHtml_shape :
  exists head,
    forall ct ps,
      Basic.buildHtml ct ps
      = head ++ Basic.esc ct ++ "</strong> ("
        ++ dec (N.of_nat (List.length ps)) ++
        tq " products)</p>
  <ul style='padding-left:18px;margin:0;'>
" ++ match ps with
           | [] => "    <li>No products found.</li>"
           | _ :: _ => join "
" (map Basic.item ps)
           end
        ++ "
  </ul>
</div>".
Proof.
  eexists. intros ct ps. unfold Basic.buildHtml. cbv zeta.
  rewrite Basic_items_truthy.
  replace (if nonzero (List.length ps)
           then join "
" (map Basic.item ps) else "    <li>No products found.</li>")
    with (match ps with
          | [] => "    <li>No products found.</li>"
          | _ :: _ => join "
" (map Basic.item ps)
          end) by (destruct ps; reflexivity).
  trim_template. chain_lhs. align.
Qed.

(** X15.  The card's count line shows the number of products in decimal,
    followed by "product" when it is 1 and by "products" otherwise. *)
Theorem Card_count_line :
  exists head, forall ct ps link, exists rest,
    Card.buildHtml ct ps link
    = tq "<a href='" ++ link ++ head ++ esc ct ++
      tq "</div>
      <div style='color:#666;font-size:12px;margin-top:2px;'>"
      ++ dec (N.of_nat (List.length ps))
      ++ (if Nat.eqb (List.length ps) 1 then " product</div>" else " products</div>")
      ++ rest.
Proof.
  eexists. intros ct ps link. unfold Card.buildHtml.
  destruct (Nat.eqb (List.length ps) 1); eexists;
    trim_template; chain_lhs; align.
Qed.

Lemma even_mod2 k : Nat.eqb (Nat.modulo k 2) 0 = Nat.even k.
Proof.
  destruct (Nat.even k) eqn:Ev.
  - apply Nat.eqb_eq. apply Nat.even_spec in Ev. destruct Ev as [m ->].
    rewrite Nat.mul_comm. apply Nat.Div0.mod_mul.
  - apply Nat.eqb_neq. intros M.
    assert (Nat.even k = true); [|congruence].
    apply Nat.even_spec. exists (k / 2)%nat.
    pose proof (Nat.div_mod_eq k 2). lia.
Qed.

Lemma rows_from_combine i ps :
  Striped.rows_from i ps
  = map (fun kp => Striped.row (fst kp) (snd kp))
        (combine (seq i (List.length ps)) ps).
Proof.
  revert i. induction ps as [|p ps IH]; intros i; cbn; [reflexivity|].
  now rewrite IH.
Qed.

Lemma Striped_row_split :
  exists (b : string) (cells : ProductRecord -> string),
    (forall k p,
        Striped.row k p
        = tq "<tr style='background:" ++
          (if Nat.even k then "#f4ebe6" else "#d6b5a2") ++
          tq ";'>
        <td style='padding:12px 10px;vertical-align:top;width:84px;'>
          " ++ cells p) /\
    (forall p, exists img rest, cells p = img ++ b ++ esc (title p) ++ rest).
Proof.
  exists (tq "
        </td>
        <td style='padding:12px 10px;vertical-align:top;'>
          <div style='color:#222829;font-weight:600;'>
            "). eexists. split.
  - intros k p. unfold Striped.row. cbv zeta. rewrite even_mod2.
    match goal with |- _ = ?R => set (rhs := R) end.
    trim_template. repeat rewrite append_assoc. subst rhs.
    do 3 (apply app_cong; [reflexivity|]).
    reflexivity.
  - intros p. cbv beta. do 2 eexists. reflexivity.
Qed.

(** X16.  For a list that is not empty the striped table is a fixed frame
    around one row per product, in the order of the list and joined by
    newlines; the row of the product at position [k] (from 0) opens with the
    background [#f4ebe6] when [k] is even and [#d6b5a2] when it is odd, and
    goes on with cells that depend on that product only: an image cell,
    fixed markup and the product's escaped title. *)
Theorem Striped_rows_alternate :
  exists (head tail b : string) (cells : ProductRecord -> string),
    (forall ct link ps,
        ps <> [] ->
        Striped.buildHtml ct ps link
        = tq "<a href='" ++ link ++ head ++
          join "
" (map (fun kp =>
          tq "<tr style='background:" ++
          (if Nat.even (fst kp) then "#f4ebe6" else "#d6b5a2") ++
          tq ";'>
        <td style='padding:12px 10px;vertical-align:top;width:84px;'>
          " ++ cells (snd kp))
       (combine (seq 0 (List.length ps)) ps)) ++
          tail) /\
    (forall p, exists img rest, cells p = img ++ b ++ esc (title p) ++ rest).
Proof.
  destruct Striped_row_split as (b & cells & R & C).
  eexists. eexists. exists b, cells. split; [|exact C].
  intros ct link ps H. unfold Striped.buildHtml, Striped.rows.
  replace (nonzero (List.length ps)) with true
    by (destruct ps; [contradiction | reflexivity]).
  rewrite rows_from_combine.
  rewrite (map_ext _ _ (fun kp => R (fst kp) (snd kp))).
  trim_template. chain_lhs. align.
Qed.

Lemma Striped_rows_alternate_witness :
  exists (head tail : string) (cells : ProductRecord -> string),
    Striped.buildHtml "Week 46"
      [ {| title := "Rose"; url := "https://s/rose"; price := "$4.00";
           imageUrl := ""; imageAlt := "Rose" |};
        {| title := "Tulip"; url := "https://s/tulip"; price := "";
           imageUrl := ""; imageAlt := "Tulip" |} ] "L"
    = tq "<a href='" ++ "L" ++ head ++
      ((tq "<tr style='background:" ++ "#f4ebe6" ++ tq ";'>
        <td style='padding:12px 10px;vertical-align:top;width:84px;'>
          " ++ cells {| title := "Rose"; url := "https://s/rose";
                        price := "$4.00"; imageUrl := ""; imageAlt := "Rose" |}) ++
      "
" ++
      (tq "<tr style='background:" ++ "#d6b5a2" ++ tq ";'>
        <td style='padding:12px 10px;vertical-align:top;width:84px;'>
          " ++ cells {| title := "Tulip"; url := "https://s/tulip";
                        price := ""; imageUrl := ""; imageAlt := "Tulip" |})) ++
      tail.
Proof.
  destruct Striped_rows_alternate as (head & tail & b & cells & H & _).
  exists head, tail, cells.
  rewrite (H "Week 46" "L"
             [ {| title := "Rose"; url := "https://s/rose"; price := "$4.00";
                  imageUrl := ""; imageAlt := "Rose" |};
               {| title := "Tulip"; url := "https://s/tulip"; price := "";
                  imageUrl := ""; imageAlt := "Tulip" |} ])
    by discriminate.
  reflexivity.
Defined.



(** ** The run, for every endpoint *)

Lemma gql_inv remote query variables log r log' :
  gql remote query variables log = (r, log') ->
  log' = (log ++ [{| req_query := query; req_variables := variables |}])%list /\
  forall d, r = Ok d ->
    delivers (remote log {| req_query := query; req_variables := variables |}) d.
Proof.
  unfold gql, bind, fetch, throw, ret, delivers.
  destruct (ok _) eqn:Hok; cbn [negb].
  - destruct (parsed _) as [[|json|]|] eqn:Hp.
    + intros [= <- <-]. split; [reflexivity | discriminate].
    + destruct (errors json) as [[|e es]|] eqn:He; intros [= <- <-];
        (split; [reflexivity|]); intros d [= <-].
      * split; [reflexivity|]. right. exists json. auto.
      * split; [reflexivity|]. right. exists json. auto.
    + intros [= <- <-]. split; [reflexivity|]. intros d [= <-].
      split; [reflexivity|]. now left.
    + intros [= <- <-]. split; [reflexivity | discriminate].
  - intros [= <- <-]. split; [reflexivity | discriminate].
Qed.

(** X18.  The client sends exactly one request per call, whatever comes
    back.  It returns a value exactly when the status is in 200..299 and the
    body parses to an object whose [errors] is absent or empty, the value
    being the object's [data], or to a number, a string, a boolean or an
    array, the value being [undefined]. *)
Theorem gql_returns_iff (remote : list Request -> Request -> Response)
    (query : string) (variables : Variables) (log : list Request) :
  let req := {| req_query := query; req_variables := variables |} in
  let res := remote log req in
  snd (gql remote query variables log) = (log ++ [req])%list /\
  forall d,
    fst (gql remote query variables log) = Ok d <->
    200 <= status res <= 299 /\
    ((parsed res = Some JsonOther /\ d = None) \/
     exists json,
       parsed res = Some (JsonObject json) /\
       (errors json = None \/ errors json = Some []) /\ data json = d).
Proof.
  cbv zeta.
  assert (K : forall res, ok res = true <-> 200 <= status res <= 299).
  { intros res. unfold ok. rewrite andb_true_iff, !Z.leb_le. tauto. }
  destruct (gql remote query variables log) as [r l] eqn:G.
  pose proof (gql_inv _ _ _ _ _ _ G) as [-> D]. cbn [fst snd].
  split; [reflexivity|]. intros d. split.
  - intros E. destruct (D d E) as (Hok & H). split; [now apply K | exact H].
  - intros (Hok & H).
    assert (V : delivers
                  (remote log {| req_query := query; req_variables := variables |})
                  d) by (split; [now apply K | exact H]).
    rewrite (gql_delivers _ _ _ _ _ V) in G. now inversion G.
Qed.

Ltac stops_early c :=
  solve [repeat first [ reflexivity | exists c | split | left; reflexivity
                      | right; reflexivity | intro; discriminate
                      | intros _; reflexivity ]].

Section RunShape.

Variable shop : string.
Variable remote : list Request -> Request -> Response.
Variable Product : Type.
Variable productsQuery : string.
Variable productRecord : string -> ProductNode -> Product.
Variable buildHtml : string -> list Product -> string -> string.

Let a_run := run shop remote Product productsQuery productRecord buildHtml.

Let lookup_request (h : string) : Request :=
  {| req_query := collectionQuery; req_variables := HandleVars h |}.

Let products_request (c : Collection) : Request :=
  {| req_query := productsQuery;
     req_variables :=
       ProductsVars 50 ("collection_id:" ++ last_segment (collection_id c)) |}.

Let shop_request : Request :=
  {| req_query := shopQuery; req_variables := NoVariables |}.

Let write_request (h : string) (c : Collection) (d2 : option Data)
    (shopId : option string) : Request :=
  {| req_query := metafieldsSetMutation;
     req_variables :=
       MetafieldsVars
         [ {| ownerId := shopId; namespace := "email";
              key := "collection_html_1";
              type_ := "multi_line_text_field";
              value :=
                buildHtml (collection_title c)
                  (map (productRecord shop)
                     (match d2 with
                      | Some (DataProducts (Some es)) => es
                      | _ => []
                      end))
                  (collectionUrlFromHandle shop h) |} ] |}.

(** X19.  Whatever the endpoint answers, a run sends between one and four
    requests, in the order lookup, product search with [first] 50, shop
    query, metafield write; the write, if any, sets the one metafield
    [email.collection_html_1] of type [multi_line_text_field]; a run that
    stops early exits with code 1, and the exit code is 0 exactly when
    nothing was thrown. *)
Theorem run_request_order (h : string) :
  let o := a_run h in
  match requests o with
  | [a] => a = lookup_request h /\ exitCode o = 1
  | [a; b] =>
      a = lookup_request h /\ (exists c, b = products_request c) /\ exitCode o = 1
  | [a; b; c3] =>
      a = lookup_request h /\ (exists c, b = products_request c) /\
      c3 = shop_request /\ exitCode o = 1
  | [a; b; c3; d] =>
      a = lookup_request h /\
      exists c, b = products_request c /\ c3 = shop_request /\
      exists d2 shopId, d = write_request h c d2 shopId
  | _ => False
  end /\
  (exitCode o = 0 \/ exitCode o = 1) /\
  (exitCode o = 0 <-> thrown o = None).
Proof.
  cbv zeta.
  unfold a_run, run, main, getCollectionNumericId, getProductsInCollection,
    writeShopMetafield, bind, ret, throw.
  destruct (gql remote collectionQuery (HandleVars h) []) as [r1 l1] eqn:G1.
  apply gql_inv in G1 as [-> _]. cbn [app].
  destruct r1 as [d1|e1]; cbn [requests exitCode thrown];
    [|repeat split; auto; try (intro; discriminate)].
  destruct (match d1 with Some (DataCollection c) => c | _ => None end)
    as [c|]; cbn [requests exitCode thrown fst snd];
    [|repeat split; auto; try (intro; discriminate)].
  match goal with
  | |- context [gql remote productsQuery ?v ?l] =>
      destruct (gql remote productsQuery v l) as [r2 l2] eqn:G2
  end.
  apply gql_inv in G2 as [-> _]. cbn [app].
  destruct r2 as [d2|e2]; cbn [requests exitCode thrown]; [|stops_early c].
  match goal with
  | |- context [gql remote shopQuery ?v ?l] =>
      destruct (gql remote shopQuery v l) as [r3 l3] eqn:G3
  end.
  apply gql_inv in G3 as [-> _]. cbn [app].
  destruct r3 as [d3|e3]; cbn [requests exitCode thrown]; [|stops_early c].
  destruct d3 as [[| |[[shopId]|]|]|]; cbv zeta;
    cbn [shop_id requests exitCode thrown]; try stops_early c.
  match goal with
  | |- context [gql remote metafieldsSetMutation ?v ?l] =>
      destruct (gql remote metafieldsSetMutation v l) as [r4 l4] eqn:G4
  end.
  apply gql_inv in G4 as [-> _]. cbn [app].
  assert (W : exists c0, products_request c = products_request c0 /\
                shop_request = shop_request /\
                exists d0 s0,
                  {| req_query := metafieldsSetMutation;
                     req_variables :=
                       MetafieldsVars
                         [ {| ownerId := shopId; namespace := "email";
                              key := "collection_html_1";
                              type_ := "multi_line_text_field";
                              value :=
                                buildHtml (collection_title c)
                                  (map (productRecord shop)
                                     (match d2 with
                                      | Some (DataProducts (Some es)) => es
                                      | _ => []
                                      end))
                                  (collectionUrlFromHandle shop h) |} ] |}
                  = write_request h c0 d0 s0).
  { exists c. split; [reflexivity|]. split; [reflexivity|].
    exists d2, shopId. reflexivity. }
  destruct r4 as [d4|e4]; cbn [requests exitCode thrown].
  - change (match d4 with
            | Some (DataMetafieldsSet (Some payload)) =>
                match userErrors payload with Some l => l | None => [] end
            | _ => []
            end) with (errs_of d4).
    destruct (errs_of d4); cbn [requests exitCode thrown];
      (split; [split; [reflexivity | exact W]|]); stops_early c.
  - split; [split; [reflexivity | exact W]|]. stops_early c.
Qed.

(** X20.  The write is sent exactly when the three reads before it are
    delivered, the lookup with a collection and the shop query with a shop
    object, with or without an [id]; the run's requests are then the lookup,
    the search in that collection's numeric id, the shop query, and the
    write, for the owner that [id] names, of the HTML built from the
    collection title, the records of the products found, and the link to
    the collection. *)
Theorem write_after_three_reads (h : string) :
  let o := a_run h in
  (List.length (requests o) = 4%nat <->
   exists c d2 shopId,
     delivers (remote [] (lookup_request h)) (Some (DataCollection (Some c))) /\
     delivers (remote [lookup_request h] (products_request c)) d2 /\
     delivers (remote [lookup_request h; products_request c] shop_request)
              (Some (DataShop (Some {| shop_id := shopId |})))) /\
  (forall c d2 shopId,
     delivers (remote [] (lookup_request h)) (Some (DataCollection (Some c))) ->
     delivers (remote [lookup_request h] (products_request c)) d2 ->
     delivers (remote [lookup_request h; products_request c] shop_request)
              (Some (DataShop (Some {| shop_id := shopId |}))) ->
     requests o
     = [lookup_request h; products_request c; shop_request;
        write_request h c d2 shopId]).
Proof.
  cbv zeta.
  assert (F : forall c d2 shopId,
     delivers (remote [] (lookup_request h)) (Some (DataCollection (Some c))) ->
     delivers (remote [lookup_request h] (products_request c)) d2 ->
     delivers (remote [lookup_request h; products_request c] shop_request)
              (Some (DataShop (Some {| shop_id := shopId |}))) ->
     requests (a_run h)
     = [lookup_request h; products_request c; shop_request;
        write_request h c d2 shopId]).
  { intros c d2 shopId H1 H2 H3.
    unfold lookup_request, products_request, shop_request, write_request
      in H1, H2, H3 |- *.
    unfold a_run, run, main, getCollectionNumericId, getProductsInCollection,
      writeShopMetafield, bind, ret, throw.
    rewrite (gql_delivers _ _ _ _ _ H1). cbn [app fst snd].
    rewrite (gql_delivers _ _ _ _ _ H2). cbn [app].
    rewrite (gql_delivers _ _ _ _ _ H3). cbn [app]. cbv zeta. cbn [shop_id].
    match goal with
    | |- context [gql remote metafieldsSetMutation ?v ?l] =>
        destruct (gql remote metafieldsSetMutation v l) as [r4 l4] eqn:G4
    end.
    apply gql_inv in G4 as [-> _]. cbn [app].
    destruct r4 as [d4|e4]; [|reflexivity].
    change (match d4 with
            | Some (DataMetafieldsSet (Some payload)) =>
                match userErrors payload with Some l => l | None => [] end
            | _ => []
            end) with (errs_of d4).
    destruct (errs_of d4); reflexivity. }
  split; [|exact F].
  split.
  - unfold a_run, run, main, getCollectionNumericId, getProductsInCollection,
      writeShopMetafield, bind, ret, throw.
    destruct (gql remote collectionQuery (HandleVars h) []) as [r1 l1] eqn:G1.
    apply gql_inv in G1 as [-> D1]. cbn [app].
    destruct r1 as [d1|e1]; cbn [requests]; [|discriminate].
    specialize (D1 _ eq_refl).
    destruct d1 as [[[c|]| | |]|]; cbn [requests fst snd]; try discriminate.
    match goal with
    | |- context [gql remote productsQuery ?v ?l] =>
        destruct (gql remote productsQuery v l) as [r2 l2] eqn:G2
    end.
    apply gql_inv in G2 as [-> D2]. cbn [app].
    destruct r2 as [d2|e2]; cbn [requests]; [|discriminate].
    specialize (D2 _ eq_refl).
    match goal with
    | |- context [gql remote shopQuery ?v ?l] =>
        destruct (gql remote shopQuery v l) as [r3 l3] eqn:G3
    end.
    apply gql_inv in G3 as [-> D3]. cbn [app].
    destruct r3 as [d3|e3]; cbn [requests]; [|discriminate].
    specialize (D3 _ eq_refl).
    destruct d3 as [[| |[[shopId]|]|]|]; cbv zeta; cbn [shop_id requests];
      try discriminate.
    intros _. exists c, d2, shopId. auto.
  - intros (c & d2 & shopId & H1 & H2 & H3).
    now rewrite (F c d2 shopId H1 H2 H3).
Qed.

(** X21.  A run exits with code 0 exactly when all four requests are
    delivered, the lookup with a collection, the shop query with a shop
    object, with or without an [id], and the write's answer holds no user
    error. *)
Theorem run_succeeds_iff (h : string) :
  exitCode (a_run h) = 0 <->
  exists c d2 shopId d4,
    delivers (remote [] (lookup_request h)) (Some (DataCollection (Some c))) /\
    delivers (remote [lookup_request h] (products_request c)) d2 /\
    delivers (remote [lookup_request h; products_request c] shop_request)
             (Some (DataShop (Some {| shop_id := shopId |}))) /\
    delivers (remote [lookup_request h; products_request c; shop_request]
                     (write_request h c d2 shopId)) d4 /\
    errs_of d4 = [].
Proof.
  split.
  - unfold a_run, run, main, getCollectionNumericId, getProductsInCollection,
      writeShopMetafield, bind, ret, throw.
    destruct (gql remote collectionQuery (HandleVars h) []) as [r1 l1] eqn:G1.
    apply gql_inv in G1 as [-> D1]. cbn [app].
    destruct r1 as [d1|e1]; cbn [exitCode]; [|discriminate].
    specialize (D1 _ eq_refl).
    destruct d1 as [[[c|]| | |]|]; cbn [exitCode fst snd]; try discriminate.
    match goal with
    | |- context [gql remote productsQuery ?v ?l] =>
        destruct (gql remote productsQuery v l) as [r2 l2] eqn:G2
    end.
    apply gql_inv in G2 as [-> D2]. cbn [app].
    destruct r2 as [d2|e2]; cbn [exitCode]; [|discriminate].
    specialize (D2 _ eq_refl).
    match goal with
    | |- context [gql remote shopQuery ?v ?l] =>
        destruct (gql remote shopQuery v l) as [r3 l3] eqn:G3
    end.
    apply gql_inv in G3 as [-> D3]. cbn [app].
    destruct r3 as [d3|e3]; cbn [exitCode]; [|discriminate].
    specialize (D3 _ eq_refl).
    destruct d3 as [[| |[[shopId]|]|]|]; cbv zeta; cbn [shop_id exitCode];
      try discriminate.
    match goal with
    | |- context [gql remote metafieldsSetMutation ?v ?l] =>
        destruct (gql remote metafieldsSetMutation v l) as [r4 l4] eqn:G4
    end.
    apply gql_inv in G4 as [-> D4]. cbn [app].
    destruct r4 as [d4|e4]; cbn [exitCode]; [|discriminate].
    specialize (D4 _ eq_refl).
    change (match d4 with
            | Some (DataMetafieldsSet (Some payload)) =>
                match userErrors payload with Some l => l | None => [] end
            | _ => []
            end) with (errs_of d4).
    destruct (errs_of d4) eqn:E; cbn [exitCode]; [|discriminate].
    intros _. exists c, d2, shopId, d4. auto.
  - intros (c & d2 & shopId & d4 & H1 & H2 & H3 & H4 & E).
    unfold lookup_request, products_request, shop_request, write_request
      in H1, H2, H3, H4.
    unfold a_run, run, main, getCollectionNumericId, getProductsInCollection,
      writeShopMetafield, bind, ret, throw.
    rewrite (gql_delivers _ _ _ _ _ H1). cbn [app fst snd].
    rewrite (gql_delivers _ _ _ _ _ H2). cbn [app].
    rewrite (gql_delivers _ _ _ _ _ H3). cbn [app]. cbv zeta. cbn [shop_id].
    rewrite (gql_delivers _ _ _ _ _ H4). cbn [app].
    change (match d4 with
            | Some (DataMetafieldsSet (Some payload)) =>
                match userErrors payload with Some l => l | None => [] end
            | _ => []
            end) with (errs_of d4).
    rewrite E. reflexivity.
Qed.

End RunShape.

Lemma example_remote_delivers ue log req d :
  example_remote ue log req
  = {| status := 200; text := "{}";
       parsed := Some (JsonObject {| errors := None; data := Some d |}) |} ->
  delivers (example_remote ue log req) (Some d).
Proof.
  intros ->. split; [reflexivity|]. right. eexists.
  split; [reflexivity|]. split; [now left | reflexivity].
Qed.

Lemma write_after_three_reads_witness :
  List.length
    (requests (run_card "flwr-farm" (example_remote None) "week-46-plants"))
  = 4%nat.
Proof.
  apply (proj2 (proj1 (write_after_three_reads "flwr-farm" (example_remote None)
           ProductRecord fullProductsQuery Card.productRecord Card.buildHtml
           "week-46-plants"))).
  exists {| collection_id := "gid://shopify/Collection/42";
            collection_title := "Week 46" |},
    (Some (DataProducts
             (Some [ {| node_title := Some "Rose"; node_handle := "rose";
                        onlineStoreUrl := None; featuredImage := None;
                        minVariantPrice :=
                          Some {| amount := "12.5"; currencyCode := "USD" |} |} ]))),
    (Some "gid://shopify/Shop/1").
  repeat split; try (apply example_remote_delivers; reflexivity).
Defined.

Lemma run_succeeds_iff_witness :
  exitCode (run_card "flwr-farm" (example_remote (Some [])) "week-46-plants") = 0.
Proof.
  apply (proj2 (run_succeeds_iff "flwr-farm" (example_remote (Some []))
           ProductRecord fullProductsQuery Card.productRecord Card.buildHtml
           "week-46-plants")).
  exists {| collection_id := "gid://shopify/Collection/42";
            collection_title := "Week 46" |},
    (Some (DataProducts
             (Some [ {| node_title := Some "Rose"; node_handle := "rose";
                        onlineStoreUrl := None; featuredImage := None;
                        minVariantPrice :=
                          Some {| amount := "12.5"; currencyCode := "USD" |} |} ]))),
    (Some "gid://shopify/Shop/1"),
    (Some (DataMetafieldsSet (Some {| userErrors := Some [] |}))).
  repeat split; try (apply example_remote_delivers; reflexivity).
Defined.

(** ** The script from its first line *)

Lemma run_first_request shop remote Product productsQuery
    (productRecord : string -> ProductNode -> Product)
    (buildHtml : string -> list Product -> string -> string) h :
  exists rest,
    requests (run shop remote Product productsQuery productRecord buildHtml h)
    = {| req_query := collectionQuery; req_variables := HandleVars h |} :: rest /\
    (List.length rest <= 3)%nat.
Proof.
  unfold run, main, getCollectionNumericId, getProductsInCollection,
    writeShopMetafield, bind, ret, throw.
  destruct (gql remote collectionQuery (HandleVars h) []) as [r1 l1] eqn:G1.
  apply gql_inv in G1 as [-> _]. cbn [app].
  destruct r1 as [d1|e1]; cbn [requests];
    [|eexists; split; [reflexivity | cbn; lia]].
  destruct (match d1 with Some (DataCollection c) => c | _ => None end)
    as [c|]; cbn [requests fst snd];
    [|eexists; split; [reflexivity | cbn; lia]].
  match goal with
  | |- context [gql remote productsQuery ?v ?l] =>
      destruct (gql remote productsQuery v l) as [r2 l2] eqn:G2
  end.
  apply gql_inv in G2 as [-> _]. cbn [app].
  destruct r2 as [d2|e2]; cbn [requests];
    [|eexists; split; [reflexivity | cbn; lia]].
  match goal with
  | |- context [gql remote shopQuery ?v ?l] =>
      destruct (gql remote shopQuery v l) as [r3 l3] eqn:G3
  end.
  apply gql_inv in G3 as [-> _]. cbn [app].
  destruct r3 as [d3|e3]; cbn [requests];
    [|eexists; split; [reflexivity | cbn; lia]].
  destruct d3 as [[| |[shopId|]|]|]; cbn [requests];
    try solve [eexists; split; [reflexivity | cbn; lia]].
  match goal with
  | |- context [gql remote metafieldsSetMutation ?v ?l] =>
      destruct (gql remote metafieldsSetMutation v l) as [r4 l4] eqn:G4
  end.
  apply gql_inv in G4 as [-> _]. cbn [app].
  destruct r4 as [d4|e4]; cbn [requests];
    [|eexists; split; [reflexivity | cbn; lia]].
  change (match d4 with
          | Some (DataMetafieldsSet (Some payload)) =>
              match userErrors payload with Some l => l | None => [] end
          | _ => []
          end) with (errs_of d4).
  destruct (errs_of d4); cbn [requests];
    eexists; split; try reflexivity; cbn; lia.
Qed.

(** X22.  Without a shop or a token (unset or empty) the script exits with
    code 1 and sends nothing.  With both, its first request is the lookup of
    the resolved handle, and at most three requests follow; started without
    an argument on a day whose next week is defined, that handle is
    "week-<N>-plants" for the ISO 8601 week [N] of the day seven days on. *)
Theorem script_guard_then_lookup (env_shop env_token argv2 : option string)
    (now : Z)
    (remote : string -> string -> list Request -> Request -> Response)
    (Product : Type) (productsQuery : string)
    (productRecord : string -> ProductNode -> Product)
    (buildHtml : string -> list Product -> string -> string) :
  let o := script env_shop env_token argv2 now remote Product productsQuery
                  productRecord buildHtml in
  (env_shop = None \/ env_shop = Some "" \/
   env_token = None \/ env_token = Some "" ->
   o = {| exitCode := 1; thrown := None; requests := [] |}) /\
  (forall shop token,
     env_shop = Some shop -> env_token = Some token ->
     shop <> "" -> token <> "" ->
     exists rest,
       requests o
       = {| req_query := collectionQuery;
            req_variables := HandleVars (handle argv2 now) |} :: rest /\
       (List.length rest <= 3)%nat /\
       (argv2 = None -> week_defined (now + 7 * 86400000) ->
        handle argv2 now
        = "week-" ++ decZ (weekNumber (Day now + 7)) ++ "-plants")).
Proof.
  cbv zeta. unfold script. split.
  - intros [-> | [-> | [-> | ->]]]; try reflexivity.
    + destruct env_token; reflexivity.
    + destruct env_shop; reflexivity.
    + destruct env_shop as [s|]; [|reflexivity].
      cbn. now rewrite orb_true_r.
  - intros shop token -> -> Hs Ht.
    rewrite (truthy_nonempty _ Hs), (truthy_nonempty _ Ht). cbn [negb orb].
    destruct (run_first_request shop (remote shop token) Product productsQuery
                productRecord buildHtml (handle argv2 now)) as (rest & E & L).
    exists rest. split; [exact E|]. split; [exact L|].
    intros -> W. exact (nextWeekHandleUTC_weekNumber now "plants" W).
Qed.

Lemma script_guard_then_lookup_witness :
  script (Some "flwr-farm") None (Some "week-4-plants") (utc 2026 11 2)
         (fun _ _ => example_remote None) ProductRecord fullProductsQuery
         Card.productRecord Card.buildHtml
  = {| exitCode := 1; thrown := None; requests := [] |}.
Proof.
  apply (proj1 (script_guard_then_lookup (Some "flwr-farm") None
                  (Some "week-4-plants") (utc 2026 11 2)
                  (fun _ _ => example_remote None) ProductRecord
                  fullProductsQuery Card.productRecord Card.buildHtml)).
  right. right. left. reflexivity.
Defined.
